(** * Duplicate checking proof of concept (88.01): api/mock-db.ts and api/chat.ts

    A shallow embedding of the duplicate-evaluation pipeline and the
    properties its specification states about it.

    Modelling conventions.
    - A JavaScript string is a [string]: a sequence of code units below 256.
      [length] is the JavaScript [.length] on such text.
    - An optional field ([details?: string]) is an [option]; a JSON request
      may also omit [siteId] or [porId], so the proposal carries them as
      options ([None] is JavaScript's [undefined]).
    - A JavaScript number that is a similarity score is a rational [Q].  All
      comparisons of the source ([> 0.7], [> 0.5], [min(0)], [max(1)]) are
      between such values; on the quotients of array lengths that the
      fallback computes, comparison with one half is exact.
    - [await] and the simulated query delays are dropped: the code is
      sequential.  What remains effectful is threaded through a state monad:
      the random identifiers drawn, the events written to the stream and the
      prompts sent to the model. *)

From Stdlib Require Import List Bool Arith Lia ZArith QArith.
From Stdlib Require Import Ascii String DecimalString.
Import ListNotations.

Local Close Scope Q_scope.
Local Open Scope string_scope.
Local Open Scope list_scope.
Local Open Scope nat_scope.

(** ** JavaScript string primitives *)

Module JS.

(** [\s] of a regular expression, on code units below 256. *)
Definition isSpace (c : ascii) : bool :=
  let n := nat_of_ascii c in
  ((9 <=? n) && (n <=? 13)) || (n =? 32) || (n =? 160).

(** One code unit of [String.prototype.toLowerCase]. *)
Definition lowerChar (c : ascii) : ascii :=
  let n := nat_of_ascii c in
  if ((65 <=? n) && (n <=? 90))
     || ((192 <=? n) && (n <=? 222) && negb (n =? 215))
  then ascii_of_nat (n + 32) else c.

Fixpoint toLowerCase (s : string) : string :=
  match s with
  | EmptyString => EmptyString
  | String c s' => String (lowerChar c) (toLowerCase s')
  end.

(** [s.startsWith(p)]. *)
Definition startsWith (s p : string) : bool := String.prefix p s.

(** [s.includes(p)]. *)
Fixpoint includes (s p : string) : bool :=
  startsWith s p ||
  match s with
  | EmptyString => false
  | String _ s' => includes s' p
  end.

(** [s.split(/\s+/)]: the pieces between maximal runs of white space; a run
    at either end leaves an empty piece there, and the empty string gives one
    empty piece.  [cur] is the piece being read, [inRun] tells whether the
    previous code unit was white space. *)
Fixpoint splitFrom (inRun : bool) (cur : string) (s : string) : list string :=
  match s with
  | EmptyString => [cur]
  | String c s' =>
      if isSpace c
      then if inRun then splitFrom true cur s'
           else cur :: splitFrom true EmptyString s'
      else splitFrom false (cur ++ String c EmptyString) s'
  end.

Definition split_ws (s : string) : list string := splitFrom false EmptyString s.

(** Template-literal rendering of a number and of a possibly missing string. *)
Definition showNat (n : nat) : string := NilEmpty.string_of_uint (Nat.to_uint n).

Definition showString (o : option string) : string :=
  match o with
  | Some s => s
  | None => "undefined"
  end.

(** Truthiness of an optional string: [undefined] and [''] are falsy. *)
Definition truthy (o : option string) : bool :=
  match o with
  | Some s => negb (String.eqb s "")
  | None => false
  end.

(** [o || d] on an optional string. *)
Definition orElse (o : option string) (d : string) : string :=
  match o with
  | Some s => if String.eqb s "" then d else s
  | None => d
  end.

(** [a === b] where [a] is a string and [b] may be [undefined]. *)
Definition strictEqOpt (a : string) (b : option string) : bool :=
  match b with
  | Some t => String.eqb a t
  | None => false
  end.

(** [str.replace(p, '')] when [str] starts with [p]: the first occurrence is
    the prefix. *)
Definition dropPrefix (p s : string) : string :=
  substring (length p) (length s - length p) s.

(** The first capture of [/KEY\s*(\S+)/]: at the first occurrence of [key]
    that is followed, after any white space, by a code unit that is not white
    space, the maximal run of such code units. *)
Fixpoint skipSpaces (s : string) : string :=
  match s with
  | String c s' => if isSpace c then skipSpaces s' else s
  | EmptyString => EmptyString
  end.

Fixpoint takeNonSpaces (s : string) : string :=
  match s with
  | String c s' => if isSpace c then EmptyString else String c (takeNonSpaces s')
  | EmptyString => EmptyString
  end.

Fixpoint matchAfter (key : string) (s : string) : option string :=
  let here :=
    if startsWith s key
    then let run := takeNonSpaces (skipSpaces (dropPrefix key s)) in
         if String.eqb run "" then None else Some run
    else None in
  match here with
  | Some run => Some run
  | None =>
      match s with
      | EmptyString => None
      | String _ s' => matchAfter key s'
      end
  end.

End JS.

(** ** api/mock-db.ts: the record store *)

Module MockDb.

Record Site := { site_id : string; site_name : string }.

Record POR := { por_id : string; por_name : string; projectCode : string }.

Inductive CostType := FixedCost | VariableCost.

Record LineItem := {
  li_id : string;
  li_name : string;
  li_type : CostType;
  li_details : option string
}.

Inductive Status := Awarded | Pending | Cancelled.

Definition Status_eqb (a b : Status) : bool :=
  match a, b with
  | Awarded, Awarded | Pending, Pending | Cancelled, Cancelled => true
  | _, _ => false
  end.

(** An element of [lineItems], in a contract and in an award alike. *)
Record Entry := {
  lineItemId : string;
  quantity : option Q;
  details : option string
}.

Record Contract := {
  id : string;
  contractNumber : string;
  siteId : string;
  porId : string;
  status : Status;
  lineItems : list Entry;
  awardedDate : string
}.

(** [AwardData] arrives as JSON and is not validated: [siteId] and [porId]
    may be missing. *)
Record AwardData := {
  award_siteId : option string;
  award_porId : option string;
  award_lineItems : list Entry
}.

Definition MOCK_SITES : list Site :=
  [ {| site_id := "site-001"; site_name := "Downtown Tower A" |};
    {| site_id := "site-002"; site_name := "Suburban Office Complex" |};
    {| site_id := "site-003"; site_name := "Airport Terminal" |} ].

Definition MOCK_PORS : list POR :=
  [ {| por_id := "por-001"; por_name := "Fiber Infrastructure Upgrade";
       projectCode := "FIBER-2025-Q1" |};
    {| por_id := "por-002"; por_name := "Network Equipment Refresh";
       projectCode := "NET-2025-Q1" |};
    {| por_id := "por-003"; por_name := "5G Tower Installation";
       projectCode := "5G-2025-Q1" |} ].

Definition MOCK_LINE_ITEMS : list LineItem :=
  [ {| li_id := "line-001"; li_name := "Fiber Optic Cable Installation";
       li_type := VariableCost; li_details := None |};
    {| li_id := "line-002"; li_name := "Network Switch";
       li_type := FixedCost; li_details := None |};
    {| li_id := "line-003"; li_name := "Tower Foundation";
       li_type := FixedCost; li_details := None |};
    {| li_id := "line-004"; li_name := "Site Preparation";
       li_type := VariableCost; li_details := None |};
    {| li_id := "line-005"; li_name := "Equipment Rack";
       li_type := FixedCost; li_details := None |} ].

Definition MOCK_CONTRACTS : list Contract :=
  [ {| id := "contract-001"; contractNumber := "PO-2025-001";
       siteId := "site-001"; porId := "por-001"; status := Awarded;
       lineItems :=
         [ {| lineItemId := "line-001"; quantity := None;
              details := Some "Install fiber optic cable from main hub to building basement" |};
           {| lineItemId := "line-002"; quantity := Some (2 # 1)%Q; details := None |} ];
       awardedDate := "2025-01-15" |};
    {| id := "contract-002"; contractNumber := "PO-2025-002";
       siteId := "site-001"; porId := "por-001"; status := Awarded;
       lineItems :=
         [ {| lineItemId := "line-004"; quantity := None;
              details := Some "Prepare site for fiber installation - trenching and conduit" |} ];
       awardedDate := "2025-01-20" |};
    {| id := "contract-003"; contractNumber := "PO-2025-003";
       siteId := "site-002"; porId := "por-002"; status := Awarded;
       lineItems :=
         [ {| lineItemId := "line-002"; quantity := Some (5 # 1)%Q; details := None |};
           {| lineItemId := "line-005"; quantity := Some (3 # 1)%Q; details := None |} ];
       awardedDate := "2025-02-01" |};
    {| id := "contract-004"; contractNumber := "PO-2025-004";
       siteId := "site-001"; porId := "por-001"; status := Cancelled;
       lineItems :=
         [ {| lineItemId := "line-001"; quantity := None;
              details := Some "Cancelled contract" |} ];
       awardedDate := "2025-01-10" |} ].

(** The functions below read the store they are given; the program runs them
    on [MOCK_CONTRACTS] and [MOCK_LINE_ITEMS]. *)
Section Queries.

Variable contracts : list Contract.
Variable lineItemDefs : list LineItem.

Definition searchExistingContracts
    (p_siteId p_porId : option string) (p_lineItemIds : list string)
    : list Contract :=
  filter
    (fun contract =>
       Status_eqb (status contract) Awarded &&
       JS.strictEqOpt (siteId contract) p_siteId &&
       JS.strictEqOpt (porId contract) p_porId &&
       existsb
         (fun li => existsb (String.eqb (lineItemId li)) p_lineItemIds)
         (lineItems contract))
    contracts.

Definition getLineItemDetails (lineItemId : string) : option LineItem :=
  find (fun li => String.eqb (li_id li) lineItemId) lineItemDefs.

Definition getContractDetails (contractId : string) : option Contract :=
  find (fun c => String.eqb (id c) contractId) contracts.

End Queries.

End MockDb.

(** ** api/chat.ts: the evaluation pipeline *)

Module Chat.

Import MockDb.

Inductive MatchType := Exact | Semantic.

(** An element of [duplicates]. *)
Record Finding := {
  f_lineItemId : string;
  f_lineItemName : string;
  existingContractId : string;
  existingContractNumber : string;
  matchType : MatchType;
  f_similarityScore : option Q;
  aiReasoning : option string
}.

Inductive WarningLevel := low | medium | high.

(** The chunks written to the UI message stream.  [ModelChunk] stands for a
    chunk merged from the conversational [streamText] call. *)
Inductive Event :=
| TextStart (id : string)
| TextDelta (id delta : string)
| TextEnd (id : string)
| DataDuplicateWarning (id : string) (duplicates : list Finding)
    (requiresAcknowledgment : bool)
| DataDuplicateSummary (id : string) (totalDuplicates totalLineItems : nat)
    (warningLevel : WarningLevel)
| ModelChunk (payload : string).

Inductive Role := User | Assistant | System.

Inductive Part := TextPart (text : string) | OtherPart.

Record UIMessage := { role : Role; parts : list Part }.

(** The parsed request body. *)
Record Body := {
  messages : list UIMessage;
  awardData : option AwardData
}.

Record Response := { statusCode : nat; body : list Event }.

(** The object the model is asked for ([duplicateAnalysisSchema]). *)
Record DuplicateAnalysis := {
  similarity_score : Q;
  is_duplicate : bool;
  analysis_reasoning : string
}.

Record DetectResult := {
  isDuplicate : bool;
  similarityScore : Q;
  reasoning : string;
  matchingContractId : option string
}.

Record VariableCostMatch := {
  vm_contractId : string;
  vm_contractNumber : string;
  vm_details : string
}.

(** *** Effects *)

(** What a run reads and leaves behind: the source of [crypto.randomUUID]
    with the number of identifiers drawn so far, the chunks written to the
    stream, and the prompts sent to the model.  [prompts] gets one entry for
    each call of [generateObject]; requests that the SDK repeats inside one
    call are not told apart. *)
Record World := {
  uuidAt : nat -> string;
  drawn : nat;
  written : list Event;
  prompts : list string
}.

Definition M (A : Type) : Type := World -> A * World.

Definition ret {A} (a : A) : M A := fun w => (a, w).

Definition bind {A B} (m : M A) (k : A -> M B) : M B :=
  fun w => let (a, w') := m w in k a w'.

Notation "x <- m ;; k" := (bind m (fun x => k))
  (at level 61, m at next level, right associativity).
Notation "m ;;; k" := (bind m (fun _ => k))
  (at level 61, right associativity).

Definition randomUUID : M string :=
  fun w => (uuidAt w (drawn w),
            {| uuidAt := uuidAt w; drawn := S (drawn w);
               written := written w; prompts := prompts w |}).

Definition write (e : Event) : M unit :=
  fun w => (tt,
            {| uuidAt := uuidAt w; drawn := drawn w;
               written := written w ++ [e]; prompts := prompts w |}).

Definition merge (es : list Event) : M unit :=
  fun w => (tt,
            {| uuidAt := uuidAt w; drawn := drawn w;
               written := written w ++ es; prompts := prompts w |}).

Definition logPrompt (p : string) : M unit :=
  fun w => (tt,
            {| uuidAt := uuidAt w; drawn := drawn w;
               written := written w; prompts := prompts w ++ [p] |}).

(** A [for ... of] loop that carries an accumulator. *)
Fixpoint forOf {A S} (xs : list A) (body : S -> A -> M S) (acc : S) : M S :=
  match xs with
  | [] => ret acc
  | x :: xs' => acc' <- body acc x ;; forOf xs' body acc'
  end.

(** *** Text *)

Definition nl : string := String (ascii_of_nat 10) EmptyString.
Definition dq : string := String (ascii_of_nat 34) EmptyString.

Definition Qgtb (a b : Q) : bool := negb (Qle_bool a b).

Definition noDetailsPlaceholder : string := "No details provided".

Definition systemPrompt : string :=
"You are a duplicate detection system for contract line items.

Your task is to determine if two variable-cost line items represent the same work activity,
even if they have different wording in their free-text details field.

Consider:
- Semantic similarity of the work described
- Location/site context
- Technical specifications

Return a structured analysis with similarity_score (0-1), is_duplicate (true if similarity_score > 0.7), and reasoning.".

Definition comparisonPrompt (newDetails : option string) (existingDetails : string)
    : string :=
  nl ++ "Compare these variable-cost line items:" ++ nl ++ nl ++
  "NEW LINE ITEM:" ++ nl ++
  "Details: " ++ dq ++ JS.orElse newDetails noDetailsPlaceholder ++ dq ++ nl ++ nl ++
  "EXISTING LINE ITEM:" ++ nl ++
  "Details: " ++ dq ++ existingDetails ++ dq ++ nl ++ nl ++
  "Are these duplicates? Consider semantic meaning, not just exact text matches." ++ nl.

Definition statusText (a : AwardData) : string :=
  "Checking for duplicates in award:" ++ nl ++
  "- Site: " ++ JS.showString (award_siteId a) ++ nl ++
  "- POR: " ++ JS.showString (award_porId a) ++ nl ++
  "- Line Items: " ++ JS.showNat (List.length (award_lineItems a)) ++ nl ++ nl ++
  "Analyzing existing contracts...".

Definition warningText (n : nat) : string :=
  nl ++ nl ++ "⚠️ **Duplicate Check Complete**" ++ nl ++ nl ++
  "Found " ++ JS.showNat n ++
  " duplicate line item(s) that match existing contracts. Please review the details below.".

Definition successText (n : nat) : string :=
  nl ++ nl ++ "✅ **Duplicate Check Complete**" ++ nl ++ nl ++
  "No duplicates found! All " ++ JS.showNat n ++
  " line item(s) are unique for this Site and POR. You can proceed with the award.".

Definition fallbackReasoning (matches total : nat) : string :=
  "Keyword-based similarity: " ++ JS.showNat matches ++ "/" ++ JS.showNat total ++
  " keywords match (AI analysis unavailable)".

(** *** The pipeline

    The store is a parameter, as in [MockDb].  The other parameters are the
    collaborators the handler calls: the model provider behind
    [generateObject] ([None] when the call fails), [JSON.parse] at type
    [AwardData] ([None] when it throws or yields a falsy value) and the
    conversational [streamText] call with the chunks it streams. *)
Section Pipeline.

Variable contracts : list Contract.
Variable lineItemDefs : list LineItem.
Variable provider : string -> string -> option DuplicateAnalysis.
Variable JSON_parse : string -> option AwardData.
Variable streamText : list UIMessage -> list Event.

(** [duplicateAnalysisSchema]: [similarity_score] is [min(0).max(1)]. *)
Definition duplicateAnalysisSchema (o : DuplicateAnalysis) : bool :=
  Qle_bool 0 (similarity_score o) && Qle_bool (similarity_score o) 1.

(** [generateObject] sends the prompt and fails when the provider fails or
    when the object it returns does not satisfy the schema. *)
Definition generateObject (system prompt : string) : M (option DuplicateAnalysis) :=
  logPrompt prompt ;;;
  ret (match provider system prompt with
       | Some o => if duplicateAnalysisSchema o then Some o else None
       | None => None
       end).

(** chat.ts 116-126. *)
Definition variableCostMatches (newLineItem : Entry)
    (existingContracts : list Contract) : list VariableCostMatch :=
  filter (fun m => negb (String.eqb (vm_details m) ""))
    (flat_map
       (fun contract =>
          map (fun li => {| vm_contractId := id contract;
                            vm_contractNumber := contractNumber contract;
                            vm_details := JS.orElse (details li) "" |})
            (filter (fun li => String.eqb (lineItemId li) (lineItemId newLineItem))
               (lineItems contract)))
       existingContracts).

(** chat.ts 198-214: the [catch] branch. *)
Definition keywords (newText : string) : list string :=
  filter (fun w => 3 <? String.length w) (JS.split_ws newText).

Definition keywordFallback (newLineItem : Entry) (firstMatch : VariableCostMatch)
    : DetectResult :=
  let newText := JS.toLowerCase (JS.orElse (details newLineItem) "") in
  let existingText := JS.toLowerCase (vm_details firstMatch) in
  let keywords := keywords newText in
  let matches :=
    List.length (filter (fun kw => JS.includes existingText kw) keywords) in
  let similarityScore :=
    if 0 <? List.length keywords
    then (Z.of_nat matches # Pos.of_nat (List.length keywords))%Q
    else 0%Q in
  {| isDuplicate := Qgtb similarityScore (1 # 2);
     similarityScore := similarityScore;
     reasoning := fallbackReasoning matches (List.length keywords);
     matchingContractId := Some (vm_contractId firstMatch) |}.

(** chat.ts 103-216. *)
Definition detectVariableCostDuplicates (newLineItem : Entry)
    (existingContracts : list Contract) : M DetectResult :=
  let variableCostMatches := variableCostMatches newLineItem existingContracts in
  if List.length variableCostMatches =? 0
  then ret {| isDuplicate := false;
              similarityScore := 0;
              reasoning := "No variable-cost items with details found to compare";
              matchingContractId := None |}
  else
    match nth_error variableCostMatches 0 with
    | None => ret {| isDuplicate := false;
                     similarityScore := 0;
                     reasoning := "No matching contract found";
                     matchingContractId := None |}
    | Some firstMatch =>
        result <- generateObject systemPrompt
                    (comparisonPrompt (details newLineItem) (vm_details firstMatch)) ;;
        match result with
        | Some object =>
            ret {| isDuplicate :=
                     is_duplicate object || Qgtb (similarity_score object) (7 # 10);
                   similarityScore := similarity_score object;
                   reasoning := analysis_reasoning object;
                   matchingContractId := Some (vm_contractId firstMatch) |}
        | None => ret (keywordFallback newLineItem firstMatch)
        end
    end.

(** chat.ts 226-262: the award comes from the body, else from the text of
    the last message when a user sent it. *)
Definition awardPrefix : string := "CHECK_DUPLICATES_AWARD_DATA:".

Definition messageText (m : UIMessage) : string :=
  String.concat ""
    (map (fun p => match p with TextPart t => t | OtherPart => "" end) (parts m)).

Definition extractAwardData (b : Body) : option AwardData :=
  match awardData b with
  | Some a => Some a
  | None =>
      match last (map Some (messages b)) None with
      | Some lastMessage =>
          match role lastMessage with
          | User =>
              let text := messageText lastMessage in
              let parsed :=
                if JS.startsWith text awardPrefix
                then JSON_parse (JS.dropPrefix awardPrefix text)
                else None in
              match parsed with
              | Some a => Some a
              | None =>
                  if JS.includes text "Site:" && JS.includes text "POR:"
                  then match JS.matchAfter "Site:" text, JS.matchAfter "POR:" text with
                       | Some siteMatch, Some porMatch =>
                           Some {| award_siteId := Some siteMatch;
                                   award_porId := Some porMatch;
                                   award_lineItems := [] |}
                       | _, _ => None
                       end
                  else None
              end
          | _ => None
          end
      | None => None
      end
  end.

(** chat.ts 350-406: one turn of the loop over the proposed line items;
    [duplicates] is the array the loop pushes to. *)
Definition checkLineItem (existingContracts : list Contract)
    (duplicates : list Finding) (newLineItem : Entry) : M (list Finding) :=
  match getLineItemDetails lineItemDefs (lineItemId newLineItem) with
  | None => ret duplicates
  | Some lineItem =>
      let contractsWithLineItem :=
        filter
          (fun contract =>
             existsb (fun li => String.eqb (lineItemId li) (lineItemId newLineItem))
               (lineItems contract))
          existingContracts in
      if 0 <? List.length contractsWithLineItem
      then
        match li_type lineItem with
        | FixedCost =>
            forOf contractsWithLineItem
              (fun duplicates contract =>
                 ret (duplicates ++
                      [ {| f_lineItemId := lineItemId newLineItem;
                           f_lineItemName := li_name lineItem;
                           existingContractId := id contract;
                           existingContractNumber := contractNumber contract;
                           matchType := Exact;
                           f_similarityScore := None;
                           aiReasoning := None |} ]))
              duplicates
        | VariableCost =>
            aiResult <- detectVariableCostDuplicates newLineItem contractsWithLineItem ;;
            if isDuplicate aiResult && JS.truthy (matchingContractId aiResult)
            then
              ret (duplicates ++
                   [ {| f_lineItemId := lineItemId newLineItem;
                        f_lineItemName := li_name lineItem;
                        existingContractId := JS.orElse (matchingContractId aiResult) "";
                        existingContractNumber :=
                          match find (fun c => JS.strictEqOpt (id c) (matchingContractId aiResult))
                                  contractsWithLineItem with
                          | Some c => contractNumber c
                          | None => ""
                          end;
                        matchType := Semantic;
                        f_similarityScore := Some (similarityScore aiResult);
                        aiReasoning := Some (reasoning aiResult) |} ])
            else ret duplicates
        end
      else ret duplicates
  end.

(** chat.ts 330-406. *)
Definition findDuplicates (a : AwardData) : M (list Finding) :=
  let lineItemIds := map lineItemId (award_lineItems a) in
  let existingContracts :=
    searchExistingContracts contracts (award_siteId a) (award_porId a) lineItemIds in
  forOf (award_lineItems a) (checkLineItem existingContracts) [].

Definition warningLevelOf (n : nat) : WarningLevel :=
  if n =? 1 then low else if n <=? 3 then medium else high.

Definition writeText (text : string) : M unit :=
  textId <- randomUUID ;;
  write (TextStart textId) ;;;
  write (TextDelta textId text) ;;;
  write (TextEnd textId).

(** chat.ts 408-472. *)
Definition emitResults (a : AwardData) (duplicates : list Finding) : M unit :=
  if 0 <? List.length duplicates
  then
    warningId <- randomUUID ;;
    write (DataDuplicateWarning warningId duplicates true) ;;;
    let warningLevel := warningLevelOf (List.length duplicates) in
    summaryId <- randomUUID ;;
    write (DataDuplicateSummary summaryId (List.length duplicates)
             (List.length (award_lineItems a)) warningLevel) ;;;
    writeText (warningText (List.length duplicates))
  else
    writeText (successText (List.length (award_lineItems a))).

(** chat.ts 265-474: the [execute] callback of the stream. *)
Definition execute (b : Body) (extractedAwardData : option AwardData) : M unit :=
  match extractedAwardData with
  | Some a => writeText (statusText a)
  | None => merge (streamText (messages b))
  end ;;;
  match extractedAwardData with
  | Some a =>
      duplicates <- findDuplicates a ;;
      emitResults a duplicates
  | None => ret tt
  end.

(** chat.ts 218-478, on a request whose body has been read and has the
    declared types ([req.json()] returned, the messages are messages, the
    line items of an award are an array); what the handler does when one of
    these throws is not part of the model.  Every request gets a stream of
    its own, and [createUIMessageStreamResponse] answers with status 200. *)
Definition POST (b : Body) : M Response :=
  fun w =>
    let (_, w') :=
      execute b (extractAwardData b)
        {| uuidAt := uuidAt w; drawn := drawn w; written := [];
           prompts := prompts w |} in
    ({| statusCode := 200; body := written w' |}, w').

End Pipeline.

End Chat.

(** ** Vocabulary of the specification *)

Module Spec.

Import MockDb Chat.

(** *** Observing a computation *)

Definition addPrompts (w : World) (ps : list string) : World :=
  {| uuidAt := uuidAt w; drawn := drawn w; written := written w;
     prompts := prompts w ++ ps |}.

Definition blank : World :=
  {| uuidAt := fun _ => ""; drawn := 0; written := []; prompts := [] |}.

Definition resultOf {A} (m : M A) : A := fst (m blank).

Definition promptsOf {A} (m : M A) : list string := prompts (snd (m blank)).

(** A computation that draws no identifier and writes no event: all it does
    to the world is send prompts, and its result does not depend on the
    world. *)
Definition quiet {A} (m : M A) : Prop :=
  forall w, m w = (resultOf m, addPrompts w (promptsOf m)).

(** The findings a response reports. *)
Definition reportedDuplicates (r : Response) : list Finding :=
  flat_map
    (fun e => match e with
              | DataDuplicateWarning _ duplicates _ => duplicates
              | _ => []
              end)
    (body r).

Definition isDataEvent (e : Event) : bool :=
  match e with
  | DataDuplicateWarning _ _ _ | DataDuplicateSummary _ _ _ _ => true
  | _ => false
  end.

Definition isClientError (r : Response) : bool :=
  (400 <=? statusCode r) && (statusCode r <? 500).

Definition structurallyInvalid (a : AwardData) : Prop :=
  award_siteId a = None \/ award_porId a = None.

(** The three chunks of one text message. *)
Definition textEvents (textId text : string) : list Event :=
  [TextStart textId; TextDelta textId text; TextEnd textId].

(** The chunks that report the outcome, with identifiers drawn from [uuid]
    at [n] onwards. *)
Definition outcomeEvents (uuid : nat -> string) (n : nat) (a : AwardData)
    (ds : list Finding) (level : WarningLevel) : list Event :=
  match ds with
  | [] => textEvents (uuid n) (successText (List.length (award_lineItems a)))
  | _ :: _ =>
      DataDuplicateWarning (uuid n) ds true ::
      DataDuplicateSummary (uuid (S n)) (List.length ds)
        (List.length (award_lineItems a)) level ::
      textEvents (uuid (S (S n))) (warningText (List.length ds))
  end.

(** *** The matching predicates, in the words of the specification *)

Definition hasLineItem (lineItemId' : string) (c : Contract) : bool :=
  existsb (fun li => String.eqb (lineItemId li) lineItemId') (lineItems c).

(** An awarded contract at the proposal's site and project reference. *)
Definition candidate (a : AwardData) (c : Contract) : bool :=
  Status_eqb (status c) Awarded &&
  JS.strictEqOpt (siteId c) (award_siteId a) &&
  JS.strictEqOpt (porId c) (award_porId a).

(** A line item of a contract that can be compared with the proposed one:
    same identifier, details present and not empty. *)
Definition comparable (newLineItem li : Entry) : bool :=
  String.eqb (lineItemId li) (lineItemId newLineItem) && JS.truthy (details li).

Definition firstComparable (newLineItem : Entry) (cs : list Contract)
    : option (Contract * Entry) :=
  match find (fun c => existsb (comparable newLineItem) (lineItems c)) cs with
  | Some c =>
      match find (comparable newLineItem) (lineItems c) with
      | Some li => Some (c, li)
      | None => None
      end
  | None => None
  end.

(** The element of [variableCostMatches] that a line item of a contract
    gives. *)
Definition matchOf (c : Contract) (li : Entry) : VariableCostMatch :=
  {| vm_contractId := id c;
     vm_contractNumber := contractNumber c;
     vm_details := JS.orElse (details li) "" |}.

Definition noComparison : DetectResult :=
  {| isDuplicate := false;
     similarityScore := 0;
     reasoning := "No variable-cost items with details found to compare";
     matchingContractId := None |}.

(** What the model answers to a comparison, once checked against the
    schema; [None] is a failed invocation. *)
Definition oracle (provider : string -> string -> option DuplicateAnalysis)
    (prompt : string) : option DuplicateAnalysis :=
  resultOf (generateObject provider systemPrompt prompt).

Definition exactFinding (newLineItem : Entry) (lineItem : LineItem) (c : Contract)
    : Finding :=
  {| f_lineItemId := lineItemId newLineItem;
     f_lineItemName := li_name lineItem;
     existingContractId := id c;
     existingContractNumber := contractNumber c;
     matchType := Exact;
     f_similarityScore := None;
     aiReasoning := None |}.

Definition semanticFinding (newLineItem : Entry) (lineItem : LineItem)
    (contractsWithLineItem : list Contract) (aiResult : DetectResult) : Finding :=
  {| f_lineItemId := lineItemId newLineItem;
     f_lineItemName := li_name lineItem;
     existingContractId := JS.orElse (matchingContractId aiResult) "";
     existingContractNumber :=
       match find (fun c => JS.strictEqOpt (id c) (matchingContractId aiResult))
               contractsWithLineItem with
       | Some c => contractNumber c
       | None => ""
       end;
     matchType := Semantic;
     f_similarityScore := Some (similarityScore aiResult);
     aiReasoning := Some (reasoning aiResult) |}.

(** The contracts the pipeline searches for a proposal, what one proposed
    line item adds to the findings, and the findings of a proposal. *)
Definition candidatesFor (contracts : list Contract) (a : AwardData) : list Contract :=
  searchExistingContracts contracts (award_siteId a) (award_porId a)
    (map lineItemId (award_lineItems a)).

Definition entryFindings (lineItemDefs : list LineItem)
    (provider : string -> string -> option DuplicateAnalysis)
    (existingContracts : list Contract) (newLineItem : Entry) : list Finding :=
  resultOf (checkLineItem lineItemDefs provider existingContracts [] newLineItem).

Definition findings (contracts : list Contract) (lineItemDefs : list LineItem)
    (provider : string -> string -> option DuplicateAnalysis) (a : AwardData)
    : list Finding :=
  resultOf (findDuplicates contracts lineItemDefs provider a).

(** *** The lexical heuristic, in the words of the specification

    Tokens are the maximal runs of code units that are not white space; the
    fraction is taken as 0 when the new text has no token longer than 3. *)
Fixpoint wordsFrom (cur : string) (s : string) : list string :=
  match s with
  | EmptyString => if String.eqb cur "" then [] else [cur]
  | String c s' =>
      if JS.isSpace c
      then if String.eqb cur "" then wordsFrom "" s' else cur :: wordsFrom "" s'
      else wordsFrom (cur ++ String c EmptyString) s'
  end.

Definition tokens (s : string) : list string :=
  filter (fun w => 3 <? String.length w) (wordsFrom "" s).

Definition overlapCount (newText existingText : string) : nat :=
  List.length (filter (fun t => JS.includes existingText t) (tokens newText)).

Definition overlapFraction (newText existingText : string) : Q :=
  match List.length (tokens newText) with
  | O => 0%Q
  | S n => (Z.of_nat (overlapCount newText existingText) # Pos.of_nat (S n))%Q
  end.

Definition lexicalVerdict (newText existingText : string) : bool :=
  Qgtb (overlapFraction newText existingText) (1 # 2).

End Spec.

(** ** Sample requests against the seeded store *)

Module Scenarios.

Import MockDb Chat.

(** A model that cannot be reached. *)
Definition unreachable : string -> string -> option DuplicateAnalysis :=
  fun _ _ => None.

Definition noParse : string -> option AwardData := fun _ => None.

Definition noStream : list UIMessage -> list Event := fun _ => [].

Definition world0 : World :=
  {| uuidAt := fun n => ("id-" ++ JS.showNat n)%string; drawn := 0; written := [];
     prompts := [] |}.

Definition switchEntry : Entry :=
  {| lineItemId := "line-002"; quantity := Some (1 # 1)%Q; details := None |}.

Definition unknownEntry : Entry :=
  {| lineItemId := "line-999"; quantity := Some (1 # 1)%Q; details := None |}.

(** Scenario A of the specification. *)
Definition scenarioA : AwardData :=
  {| award_siteId := Some "site-001"; award_porId := Some "por-001";
     award_lineItems := [switchEntry] |}.

Definition withUnknown : AwardData :=
  {| award_siteId := Some "site-001"; award_porId := Some "por-001";
     award_lineItems := [unknownEntry; switchEntry] |}.

Definition networkSwitch : LineItem :=
  {| li_id := "line-002"; li_name := "Network Switch";
     li_type := FixedCost; li_details := None |}.

(** A proposed variable-cost entry that paraphrases contract-001, one that
    shouts it, and one without details. *)
Definition fiberEntry : Entry :=
  {| lineItemId := "line-001"; quantity := None;
     details := Some "Run fiber optic cable from the main hub to the basement" |}.

Definition shoutedEntry : Entry :=
  {| lineItemId := "line-001"; quantity := None;
     details := Some "INSTALL FIBER OPTIC CABLE" |}.

Definition missingSite : AwardData :=
  {| award_siteId := None; award_porId := Some "por-001";
     award_lineItems := [switchEntry] |}.

Definition requestOf (a : AwardData) : Body :=
  {| messages := []; awardData := Some a |}.

Definition bareEntry : Entry :=
  {| lineItemId := "line-001"; quantity := None; details := None |}.

Definition fiberInstallation : LineItem :=
  {| li_id := "line-001"; li_name := "Fiber Optic Cable Installation";
     li_type := VariableCost; li_details := None |}.

Definition contract001 : Contract :=
  {| id := "contract-001"; contractNumber := "PO-2025-001";
     siteId := "site-001"; porId := "por-001"; status := Awarded;
     lineItems :=
       [ {| lineItemId := "line-001"; quantity := None;
            details := Some "Install fiber optic cable from main hub to building basement" |};
         {| lineItemId := "line-002"; quantity := Some (2 # 1)%Q; details := None |} ];
     awardedDate := "2025-01-15" |}.

Definition contract001Fiber : Entry :=
  {| lineItemId := "line-001"; quantity := None;
     details := Some "Install fiber optic cable from main hub to building basement" |}.

(** A model that denies the duplicate but scores it at 0.8. *)
Definition scoresHigh : DuplicateAnalysis :=
  {| similarity_score := (8 # 10)%Q; is_duplicate := false;
     analysis_reasoning := "Same cable run, different wording" |}.

Definition scoringProvider : string -> string -> option DuplicateAnalysis :=
  fun _ _ => Some scoresHigh.

End Scenarios.

(** ** api/chat.ts 48-100: the tools, and the remaining lookups of mock-db.ts *)

Module Tools.

Import MockDb.

Section Lookups.

Variable sites : list Site.
Variable pors : list POR.

(** mock-db.ts 1442-1450. *)
Definition getSiteDetails (siteId : string) : option Site :=
  find (fun s => String.eqb (site_id s) siteId) sites.

Definition getPORDetails (porId : string) : option POR :=
  find (fun p => String.eqb (por_id p) porId) pors.

End Lookups.

(** What [searchContractsTool] returns for each contract. *)
Record ContractSummary := {
  cs_id : string;
  cs_contractNumber : string;
  cs_lineItems : list Entry;
  cs_awardedDate : string
}.

(** A tool answers with the record or with [{ error: ... }]. *)
Inductive ToolResult (A : Type) :=
| Found (a : A)
| ToolError (error : string).

Arguments Found {A} a.
Arguments ToolError {A} error.

Section ToolDefinitions.

Variable contracts : list Contract.
Variable lineItemDefs : list LineItem.

(** chat.ts 63-77. *)
Definition searchContractsTool (siteId porId : string) (lineItemIds : list string)
    : list ContractSummary :=
  map (fun c => {| cs_id := id c;
                   cs_contractNumber := contractNumber c;
                   cs_lineItems := lineItems c;
                   cs_awardedDate := awardedDate c |})
    (searchExistingContracts contracts (Some siteId) (Some porId) lineItemIds).

(** chat.ts 85-88. *)
Definition getLineItemTool (lineItemId : string) : ToolResult LineItem :=
  match getLineItemDetails lineItemDefs lineItemId with
  | Some lineItem => Found lineItem
  | None => ToolError "Line item not found"
  end.

(** chat.ts 96-99. *)
Definition getContractTool (contractId : string) : ToolResult Contract :=
  match getContractDetails contracts contractId with
  | Some contract => Found contract
  | None => ToolError "Contract not found"
  end.

End ToolDefinitions.

End Tools.

(** ** client/award-form.tsx: the state of the award form *)

Module AwardForm.

Import MockDb.

(** The [updates] argument of [updateLineItem]: a field that is left out, or
    passed as [undefined], is [None]. *)
Record Updates := {
  u_lineItemId : option string;
  u_quantity : option Q;
  u_details : option string
}.

(** [xs.filter((x, i) => f(x, i))], counting the index from [i]. *)
Fixpoint filterIndexFrom {A} (f : A -> nat -> bool) (i : nat) (xs : list A) : list A :=
  match xs with
  | [] => []
  | x :: xs' =>
      if f x i then x :: filterIndexFrom f (S i) xs' else filterIndexFrom f (S i) xs'
  end.

(** [xs[i] = v] on a copy, for an index inside the array. *)
Fixpoint assignAt {A} (i : nat) (v : A) (xs : list A) : list A :=
  match xs, i with
  | [], _ => []
  | _ :: xs', O => v :: xs'
  | x :: xs', S i' => x :: assignAt i' v xs'
  end.

(** The initial [selectedLineItems] (award-form.tsx 18-31). *)
Definition initialLineItems : list Entry :=
  [ {| lineItemId := "line-001"; quantity := None;
       details := Some "Install fiber optic cable infrastructure to connect building to main network" |};
    {| lineItemId := "line-002"; quantity := Some (1 # 1)%Q; details := None |} ].

(** Each handler is given the current [selectedLineItems] and returns the
    next one; a handler that does not call [setSelectedLineItems] returns the
    current one.  The catalogue is [MOCK_LINE_ITEMS]. *)
Section Handlers.

Variable catalogue : list LineItem.

(** award-form.tsx 42-50. *)
Definition addLineItem (selectedLineItems : list Entry) : list Entry :=
  match nth_error catalogue 0 with
  | Some first =>
      if JS.truthy (Some (li_id first))
      then selectedLineItems ++
           [ {| lineItemId := li_id first; quantity := None; details := None |} ]
      else selectedLineItems
  | None => selectedLineItems
  end.

(** award-form.tsx 52-54. *)
Definition removeLineItem (index : nat) (selectedLineItems : list Entry) : list Entry :=
  filterIndexFrom (fun _ i => negb (i =? index)) 0 selectedLineItems.

(** award-form.tsx 56-74. *)
Definition updateLineItem (index : nat) (updates : Updates)
    (selectedLineItems : list Entry) : list Entry :=
  let updated := selectedLineItems in
  match nth_error updated index with
  | Some currentItem =>
      assignAt index
        {| lineItemId :=
             match u_lineItemId updates with
             | Some l => l
             | None => lineItemId currentItem
             end;
           quantity :=
             match u_quantity updates with
             | Some q => Some q
             | None => quantity currentItem
             end;
           details :=
             match u_details updates with
             | Some d => Some d
             | None => details currentItem
             end |}
        updated
  | None => selectedLineItems
  end.

(** award-form.tsx 33-40: what [handleSubmit] passes to [onSubmit]. *)
Definition handleSubmit (siteId porId : string) (selectedLineItems : list Entry)
    : AwardData :=
  {| award_siteId := Some siteId;
     award_porId := Some porId;
     award_lineItems := selectedLineItems |}.

End Handlers.

End AwardForm.

(** ** client/root.tsx and client/components.tsx *)

Module Client.

Import MockDb Chat.

Section Root.

(** [JSON.stringify] at type [AwardData]. *)
Variable JSON_stringify : AwardData -> string.

(** root.tsx 18-25: the text of the message that carries the award. *)
Definition handleAwardSubmit (awardData : AwardData) : string :=
  "CHECK_DUPLICATES_AWARD_DATA:" ++ JSON_stringify awardData.

(** [sendMessage({ text })] of [useChat]: the conversation gets one more
    message, from the user, with one text part; the request it posts carries
    the messages and no [awardData]. *)
Definition sendMessage (text : string) (messages : list UIMessage) : Body :=
  {| messages := messages ++ [ {| role := User; parts := [TextPart text] |} ];
     awardData := None |}.

End Root.

(** components.tsx 54-84: the names the [Message] component shows for the
    identifiers of an award. *)
Definition siteName (siteId : string) : string :=
  if String.eqb siteId "site-001" then "Downtown Tower A"
  else if String.eqb siteId "site-002" then "Suburban Office Complex"
  else if String.eqb siteId "site-003" then "Airport Terminal"
  else siteId.

Definition porName (porId : string) : string :=
  if String.eqb porId "por-001" then "Fiber Infrastructure Upgrade"
  else if String.eqb porId "por-002" then "Network Equipment Refresh"
  else if String.eqb porId "por-003" then "5G Tower Installation"
  else porId.

Definition lineItemName (lineItemId : string) : string :=
  if String.eqb lineItemId "line-001" then "Fiber Optic Cable Installation"
  else if String.eqb lineItemId "line-002" then "Network Switch"
  else if String.eqb lineItemId "line-003" then "Tower Foundation"
  else if String.eqb lineItemId "line-004" then "Site Preparation"
  else if String.eqb lineItemId "line-005" then "Equipment Rack"
  else lineItemId.

End Client.

(** ** evals/question-answerer.eval.ts: the scorers of the release-notes evaluation *)

Module QuestionAnswererEval.

Record Link := { title : string; url : string }.

Definition links : list Link :=
  [ {| title := "TypeScript 5.8";
       url := "https://www.typescriptlang.org/docs/handbook/release-notes/typescript-5-8.html" |};
    {| title := "TypeScript 5.7";
       url := "https://www.typescriptlang.org/docs/handbook/release-notes/typescript-5-7.html" |};
    {| title := "TypeScript 5.6";
       url := "https://www.typescriptlang.org/docs/handbook/release-notes/typescript-5-6.html" |};
    {| title := "TypeScript 5.5";
       url := "https://www.typescriptlang.org/docs/handbook/release-notes/typescript-5-5.html" |};
    {| title := "TypeScript 5.4";
       url := "https://www.typescriptlang.org/docs/handbook/release-notes/typescript-5-4.html" |};
    {| title := "TypeScript 5.3";
       url := "https://www.typescriptlang.org/docs/handbook/release-notes/typescript-5-3.html" |};
    {| title := "TypeScript 5.2";
       url := "https://www.typescriptlang.org/docs/handbook/release-notes/typescript-5-2.html" |};
    {| title := "TypeScript 5.1";
       url := "https://www.typescriptlang.org/docs/handbook/release-notes/typescript-5-1.html" |};
    {| title := "TypeScript 5.0";
       url := "https://www.typescriptlang.org/docs/handbook/release-notes/typescript-5-0.html" |} ].

(** [\d] and the line terminators that [.] does not match, on code units
    below 256. *)
Definition isDigit (c : ascii) : bool :=
  let n := nat_of_ascii c in (48 <=? n) && (n <=? 57).

Definition isLineTerminator (c : ascii) : bool :=
  let n := nat_of_ascii c in (n =? 10) || (n =? 13).

Fixpoint takeDigits (s : string) : string :=
  match s with
  | String c s' => if isDigit c then String c (takeDigits s') else EmptyString
  | EmptyString => EmptyString
  end.

Fixpoint dropDigits (s : string) : string :=
  match s with
  | String c s' => if isDigit c then dropDigits s' else s
  | EmptyString => EmptyString
  end.

(** [/TypeScript (\d+\.\d+)/] at the start of [s]: after the literal, the
    longest run of digits, a dot, and the longest run of digits, both runs
    not empty; the result is the text matched. *)
Definition versionAt (s : string) : option string :=
  if JS.startsWith s "TypeScript "
  then
    let rest := JS.dropPrefix "TypeScript " s in
    let major := takeDigits rest in
    match dropDigits rest with
    | String c rest' =>
        let minor := takeDigits rest' in
        if Ascii.eqb c "."%char && negb (String.eqb major "") &&
           negb (String.eqb minor "")
        then Some ("TypeScript " ++ major ++ "." ++ minor)%string
        else None
    | EmptyString => None
    end
  else None.

(** [input.match(typescriptVersionRegex)?.[0]]: the leftmost match. *)
Fixpoint versionMatch (s : string) : option string :=
  match versionAt s with
  | Some m => Some m
  | None =>
      match s with
      | EmptyString => None
      | String _ s' => versionMatch s'
      end
  end.

(** [/\[.*?\]\(.*?\)/g.test(output)], in three steps: a closing parenthesis
    further on the line; before it, a `](' further on the line; before that,
    an opening bracket anywhere. *)
Fixpoint closesOnLine (s : string) : bool :=
  match s with
  | EmptyString => false
  | String c s' =>
      Ascii.eqb c ")"%char || (negb (isLineTerminator c) && closesOnLine s')
  end.

Fixpoint linkBodyOnLine (s : string) : bool :=
  match s with
  | EmptyString => false
  | String c s' =>
      match s' with
      | String c' s'' => Ascii.eqb c "]"%char && Ascii.eqb c' "("%char && closesOnLine s''
      | EmptyString => false
      end
      || (negb (isLineTerminator c) && linkBodyOnLine s')
  end.

Fixpoint markdownLinksFound (s : string) : bool :=
  match s with
  | EmptyString => false
  | String c s' => (Ascii.eqb c "["%char && linkBodyOnLine s') || markdownLinksFound s'
  end.

(** The five scorers (question-answerer.eval.ts 70-131). *)
Definition includesMarkdownLinks (output : string) : nat :=
  if markdownLinksFound output then 1 else 0.

Definition outputLength (output : string) : nat :=
  if String.length output <? 500 then 1 else 0.

Definition versionFoundInInput (input : string) : nat :=
  match versionMatch input with
  | Some _ => 1
  | None => 0
  end.

Definition correctDocLink (input : string) : option Link :=
  match versionMatch input with
  | Some m => find (fun link => JS.includes (title link) m) links
  | None => None
  end.

Definition correctDocLinkExists (input : string) : nat :=
  match versionMatch input with
  | None => 0
  | Some _ =>
      match correctDocLink input with
      | Some _ => 1
      | None => 0
      end
  end.

Definition correctDocLinkInOutput (input output : string) : nat :=
  match versionMatch input with
  | None => 0
  | Some _ =>
      match correctDocLink input with
      | None => 0
      | Some link =>
          let linkRegex := ("(" ++ url link ++ ")")%string in
          if JS.includes output linkRegex then 1 else 0
      end
  end.

End QuestionAnswererEval.

(** ** More vocabulary: shapes of texts and of proposed entries *)

Module Facts.

Import MockDb Chat.

(** Every code unit of the text satisfies [p]. *)
Fixpoint allCodeUnits (p : ascii -> bool) (s : string) : bool :=
  match s with
  | EmptyString => true
  | String c s' => p c && allCodeUnits p s'
  end.

(** A text without white space. *)
Definition spaceFree (s : string) : bool :=
  allCodeUnits (fun c => negb (JS.isSpace c)) s.

(** The proposed entry has a definition, and it is variable-cost. *)
Definition isVariableCost (lineItemDefs : list LineItem) (e : Entry) : bool :=
  match getLineItemDetails lineItemDefs (lineItemId e) with
  | Some li =>
      match li_type li with
      | VariableCost => true
      | FixedCost => false
      end
  | None => false
  end.

(** A text without line terminator. *)
Definition lineFree (s : string) : bool :=
  allCodeUnits (fun c => negb (QuestionAnswererEval.isLineTerminator c)) s.

(** The summary that the contract-search tool gives of a contract, and the
    contracts it is asked for: awarded, at the site and project reference,
    holding one of the identifiers. *)
Definition summaryOf (c : Contract) : Tools.ContractSummary :=
  {| Tools.cs_id := id c;
     Tools.cs_contractNumber := contractNumber c;
     Tools.cs_lineItems := lineItems c;
     Tools.cs_awardedDate := awardedDate c |}.

Definition askedFor (site por : string) (ids : list string) (c : Contract) : bool :=
  MockDb.Status_eqb (status c) Awarded &&
  String.eqb (siteId c) site && String.eqb (porId c) por &&
  existsb
    (fun k => existsb (fun li => String.eqb (lineItemId li) k) (lineItems c))
    ids.

(** A score between 0 and 1. *)
Definition unitScore (q : Q) : Prop := (0 <= q)%Q /\ (q <= 1)%Q.

End Facts.

(** ** More sample data *)

Module Samples.

Import MockDb Chat.

(** A proposed entry whose details occur, up to case, in contract-001. *)
Definition cableEntry : Entry :=
  {| lineItemId := "line-001"; quantity := None;
     details := Some "Fiber Optic Cable" |}.

Definition airportAward : AwardData :=
  {| award_siteId := Some "site-003"; award_porId := Some "por-003";
     award_lineItems := [Scenarios.switchEntry] |}.

Definition assistantReply : UIMessage :=
  {| role := Assistant; parts := [TextPart "Site: site-001 POR: por-001"] |}.

Definition legacyRequest : Body :=
  {| messages := [ {| role := User;
                      parts := [TextPart "Site: site-001 "; TextPart "POR: por-001"] |} ];
     awardData := None |}.

Definition legacyAward : AwardData :=
  {| award_siteId := Some "site-001"; award_porId := Some "por-001";
     award_lineItems := [] |}.

(** An awarded contract that holds line-001 without details. *)
Definition bareContract : Contract :=
  {| id := "contract-005"; contractNumber := "PO-2025-005";
     siteId := "site-001"; porId := "por-001"; status := Awarded;
     lineItems := [ {| lineItemId := "line-001"; quantity := None; details := None |} ];
     awardedDate := "2025-02-10" |}.

(** A pair of stand-ins for [JSON.stringify] and [JSON.parse] on one award. *)
Definition stringifyA : AwardData -> string := fun _ => "{}".

Definition parseA : string -> option AwardData := fun _ => Some Scenarios.scenarioA.

End Samples.

(** * Properties *)

Import MockDb Chat Spec.

(** ** The monad *)

Lemma addPrompts_nil (w : World) : addPrompts w [] = w.
Proof. destruct w; unfold addPrompts; simpl; now rewrite app_nil_r. Qed.

Lemma addPrompts_app (w : World) (ps qs : list string) :
  addPrompts (addPrompts w ps) qs = addPrompts w (ps ++ qs).
Proof. unfold addPrompts; simpl; now rewrite app_assoc. Qed.

Lemma quiet_ret {A} (a : A) : quiet (ret a).
Proof. intro w. unfold resultOf, promptsOf, ret; simpl. now rewrite addPrompts_nil. Qed.

Lemma quiet_run {A} (m : M A) (w : World) :
  quiet m -> m w = (resultOf m, addPrompts w (promptsOf m)).
Proof. intro H; apply H. Qed.

Lemma bind_run {A B} (m : M A) (k : A -> M B) (w : World) :
  bind m k w = k (fst (m w)) (snd (m w)).
Proof. unfold bind. now destruct (m w). Qed.

Lemma resultOf_bind {A B} (m : M A) (k : A -> M B) :
  quiet m -> (forall a, quiet (k a)) ->
  resultOf (bind m k) = resultOf (k (resultOf m)).
Proof.
  intros Hm Hk. unfold resultOf at 1. rewrite bind_run, (Hm blank); simpl.
  now rewrite (Hk _ _).
Qed.

Lemma promptsOf_bind {A B} (m : M A) (k : A -> M B) :
  quiet m -> (forall a, quiet (k a)) ->
  promptsOf (bind m k) = promptsOf m ++ promptsOf (k (resultOf m)).
Proof.
  intros Hm Hk. unfold promptsOf at 1. rewrite bind_run, (Hm blank); simpl.
  now rewrite (Hk _ _).
Qed.

Lemma quiet_bind {A B} (m : M A) (k : A -> M B) :
  quiet m -> (forall a, quiet (k a)) -> quiet (bind m k).
Proof.
  intros Hm Hk w.
  rewrite (resultOf_bind m k Hm Hk), (promptsOf_bind m k Hm Hk).
  rewrite bind_run, (Hm w); simpl. rewrite (Hk _ _).
  now rewrite addPrompts_app.
Qed.

Lemma quiet_logPrompt (p : string) : quiet (logPrompt p).
Proof. intro w. reflexivity. Qed.

Lemma quiet_forOf {A S} (body : S -> A -> M S) (xs : list A) :
  (forall acc x, quiet (body acc x)) -> forall acc, quiet (forOf xs body acc).
Proof.
  intro Hb. induction xs as [|x xs IH]; intro acc; simpl.
  - apply quiet_ret.
  - apply quiet_bind; auto.
Qed.

(** A loop whose body only appends to the accumulator appends, in order, what
    each element contributes. *)
Lemma resultOf_forOf_append {A F} (body : list F -> A -> M (list F))
    (contrib : A -> list F) (xs : list A) :
  (forall acc x, quiet (body acc x)) ->
  (forall acc x, resultOf (body acc x) = acc ++ contrib x) ->
  forall acc, resultOf (forOf xs body acc) = acc ++ flat_map contrib xs.
Proof.
  intros Hq Hc. induction xs as [|x xs IH]; intro acc; simpl.
  - unfold resultOf, ret; simpl. now rewrite app_nil_r.
  - rewrite resultOf_bind; auto using quiet_forOf.
    now rewrite IH, Hc, <- app_assoc.
Qed.

Lemma promptsOf_forOf {A S} (body : S -> A -> M S) (sent : A -> list string)
    (xs : list A) :
  (forall acc x, quiet (body acc x)) ->
  (forall acc x, promptsOf (body acc x) = sent x) ->
  forall acc, promptsOf (forOf xs body acc) = flat_map sent xs.
Proof.
  intros Hq Hs. induction xs as [|x xs IH]; intro acc; simpl.
  - reflexivity.
  - rewrite promptsOf_bind; auto using quiet_forOf.
    now rewrite IH, Hs.
Qed.

(** ** Lists and strings *)

Lemma filter_twice {A} (f g : A -> bool) (l : list A) :
  filter f (filter g l) = filter (fun x => g x && f x) l.
Proof.
  induction l as [|x l IH]; simpl; [reflexivity|].
  destruct (g x); simpl; [destruct (f x)|]; now rewrite IH.
Qed.

Lemma filter_nil_iff {A} (f : A -> bool) (l : list A) :
  filter f l = [] <-> forall x, In x l -> f x = false.
Proof.
  induction l as [|x l IH]; simpl.
  - split; [intros _ y []|reflexivity].
  - destruct (f x) eqn:E; split.
    + discriminate.
    + intro H. rewrite (H x) in E; [discriminate|now left].
    + intros H y [<-|Hy]; [assumption|]. now apply IH.
    + intro H. apply IH. intros y Hy. apply H. now right.
Qed.

Lemma Status_eqb_eq (a b : Status) : Status_eqb a b = true <-> a = b.
Proof. destruct a, b; simpl; split; congruence. Qed.

Lemma strictEqOpt_true (a : string) (b : option string) :
  JS.strictEqOpt a b = true <-> b = Some a.
Proof.
  destruct b as [t|]; simpl.
  - rewrite String.eqb_eq. split; congruence.
  - split; discriminate.
Qed.

Lemma hasLineItem_true (lid : string) (c : Contract) :
  hasLineItem lid c = true <->
  exists li, In li (lineItems c) /\ lineItemId li = lid.
Proof.
  unfold hasLineItem. rewrite existsb_exists.
  split; intros [li [H1 H2]]; exists li; split; auto; now apply String.eqb_eq.
Qed.

Lemma includes_ids (lid : string) (ids : list string) :
  existsb (String.eqb lid) ids = true <-> In lid ids.
Proof.
  rewrite existsb_exists. split.
  - intros [x [Hx E]]. apply String.eqb_eq in E. now subst.
  - intro H. exists lid. split; [assumption|apply String.eqb_refl].
Qed.

Lemma candidate_true (a : AwardData) (c : Contract) :
  candidate a c = true <->
  status c = Awarded /\ award_siteId a = Some (siteId c) /\
  award_porId a = Some (porId c).
Proof.
  unfold candidate. rewrite !andb_true_iff, Status_eqb_eq, !strictEqOpt_true.
  tauto.
Qed.

(** ** Texts *)

Lemma str_app_assoc (a b c : string) : ((a ++ b) ++ c)%string = (a ++ b ++ c)%string.
Proof. induction a as [|x a IH]; simpl; [reflexivity|now rewrite IH]. Qed.

Lemma str_app_nil_r (a : string) : (a ++ "")%string = a.
Proof. induction a as [|x a IH]; simpl; [reflexivity|now rewrite IH]. Qed.

Lemma str_length_app (a b : string) :
  String.length (a ++ b) = String.length a + String.length b.
Proof. induction a as [|x a IH]; simpl; [reflexivity|now rewrite IH]. Qed.

Lemma startsWith_app (p s : string) : JS.startsWith (p ++ s) p = true.
Proof.
  unfold JS.startsWith. induction p as [|x p IH]; simpl.
  - now destruct s.
  - destruct (ascii_dec x x) as [_|N]; [exact IH|now elim N].
Qed.

Lemma startsWith_decompose (s p : string) :
  JS.startsWith s p = true -> exists b, s = (p ++ b)%string.
Proof.
  unfold JS.startsWith. revert s. induction p as [|x p IH]; intros s H.
  - now exists s.
  - destruct s as [|y s]; simpl in H; [discriminate|].
    destruct (ascii_dec x y) as [->|N]; [|discriminate].
    destruct (IH s H) as [b ->]. now exists b.
Qed.

Lemma includes_unfold (s p : string) :
  JS.includes s p =
  JS.startsWith s p ||
  match s with
  | EmptyString => false
  | String _ s' => JS.includes s' p
  end.
Proof. now destruct s. Qed.

Lemma includes_app (a p b : string) : JS.includes (a ++ p ++ b) p = true.
Proof.
  induction a as [|x a IH].
  - simpl append. rewrite includes_unfold, startsWith_app. reflexivity.
  - rewrite includes_unfold. simpl. rewrite IH. apply orb_true_r.
Qed.

Lemma includes_decompose (s p : string) :
  JS.includes s p = true -> exists a b, s = (a ++ p ++ b)%string.
Proof.
  induction s as [|x s IH]; rewrite includes_unfold; intro H;
    apply orb_true_iff in H; destruct H as [H|H].
  - apply startsWith_decompose in H. destruct H as [b ->]. now exists ""%string, b.
  - discriminate.
  - apply startsWith_decompose in H. destruct H as [b ->]. now exists ""%string, b.
  - destruct (IH H) as (a & b & ->). now exists (String x a), b.
Qed.

Lemma includes_trans (x n w : string) :
  JS.includes x n = true -> JS.includes n w = true -> JS.includes x w = true.
Proof.
  intros H1 H2.
  apply includes_decompose in H1, H2.
  destruct H1 as (a & b & ->). destruct H2 as (a' & b' & ->).
  replace (a ++ (a' ++ w ++ b') ++ b)%string
    with ((a ++ a') ++ w ++ (b' ++ b))%string.
  - apply includes_app.
  - now rewrite !str_app_assoc.
Qed.

Lemma includes_length (s p : string) :
  JS.includes s p = true -> String.length p <= String.length s.
Proof.
  intro H. apply includes_decompose in H. destruct H as (a & b & ->).
  rewrite !str_length_app. lia.
Qed.

(** Every piece of [split] is a part of the text it was split from. *)
Lemma splitFrom_pieces (s : string) :
  forall inRun cur w,
    (inRun = true -> cur = ""%string) ->
    In w (JS.splitFrom inRun cur s) -> JS.includes (cur ++ s) w = true.
Proof.
  induction s as [|c s IH]; intros inRun cur w Hrun Hw; simpl in Hw.
  - destruct Hw as [<-|[]]. exact (includes_app "" cur "").
  - destruct (JS.isSpace c).
    + assert (Hrest : forall v, In v (JS.splitFrom true "" s) ->
                                JS.includes (cur ++ String c s) v = true).
      { intros v Hv. apply (IH true ""%string v (fun _ => eq_refl)) in Hv.
        simpl in Hv.
        apply includes_decompose in Hv. destruct Hv as (a & b & ->).
        replace (cur ++ String c (a ++ v ++ b))%string
          with ((cur ++ String c a) ++ v ++ b)%string.
        - apply includes_app.
        - rewrite str_app_assoc. reflexivity. }
      destruct inRun.
      * rewrite (Hrun eq_refl) in *. now apply Hrest.
      * destruct Hw as [<-|Hw]; [|now apply Hrest].
        exact (includes_app "" cur (String c s)).
    + apply (IH false) in Hw; [|discriminate].
      now rewrite str_app_assoc in Hw.
Qed.

Lemma keywords_in_text (s w : string) :
  In w (keywords s) -> JS.includes s w = true.
Proof.
  unfold keywords, JS.split_ws. intro H. apply filter_In in H.
  destruct H as [H _].
  exact (splitFrom_pieces s false ""%string w (fun E => False_ind _ (diff_false_true E)) H).
Qed.

Lemma toLowerCase_empty (o : option string) :
  JS.truthy o = false -> JS.toLowerCase (JS.orElse o "") = ""%string.
Proof.
  destruct o as [t|]; simpl; [|reflexivity].
  destruct (String.eqb t "") eqn:E; [reflexivity|discriminate].
Qed.

Lemma filter_all {A} (f : A -> bool) (l : list A) :
  (forall x, In x l -> f x = true) -> filter f l = l.
Proof.
  induction l as [|x l IH]; intro H; simpl; [reflexivity|].
  rewrite (H x) by (now left). rewrite IH; [reflexivity|].
  intros y Hy. apply H. now right.
Qed.

Lemma Zpos_of_nat (n : nat) : 0 < n -> Z.pos (Pos.of_nat n) = Z.of_nat n.
Proof.
  intro H. destruct n as [|n]; [lia|].
  rewrite <- Pos.of_nat_succ, Zpos_P_of_succ_nat. lia.
Qed.

(** ** The record store *)

Section Store.

Variable contracts : list Contract.
Variable lineItemDefs : list LineItem.

(** The search as one filter of the store by the predicates of the
    specification. *)
Lemma search_as_candidates (a : AwardData) (ids : list string) :
  searchExistingContracts contracts (award_siteId a) (award_porId a) ids =
  filter
    (fun c => candidate a c &&
              existsb (fun li => existsb (String.eqb (lineItemId li)) ids)
                (lineItems c))
    contracts.
Proof. reflexivity. Qed.

Lemma search_In (a : AwardData) (ids : list string) (c : Contract) :
  In c (searchExistingContracts contracts (award_siteId a) (award_porId a) ids) <->
  In c contracts /\ status c = Awarded /\
  award_siteId a = Some (siteId c) /\ award_porId a = Some (porId c) /\
  exists li, In li (lineItems c) /\ In (lineItemId li) ids.
Proof.
  rewrite search_as_candidates, filter_In, andb_true_iff, candidate_true,
    existsb_exists.
  split.
  - intros (Hc & (Hs & Hsite & Hpor) & li & Hli & Hid).
    repeat split; auto. exists li. split; auto. now apply includes_ids.
  - intros (Hc & Hs & Hsite & Hpor & li & Hli & Hid).
    repeat split; auto. exists li. split; auto. now apply includes_ids.
Qed.

(** Among the contracts found for the whole proposal, those holding one
    proposed identifier are the candidates of the store that hold it. *)
Lemma contractsWithLineItem_collapse (a : AwardData) (ids : list string)
    (lid : string) :
  In lid ids ->
  filter (hasLineItem lid)
    (searchExistingContracts contracts (award_siteId a) (award_porId a) ids) =
  filter (fun c => candidate a c && hasLineItem lid c) contracts.
Proof.
  intro Hin. rewrite search_as_candidates, filter_twice.
  apply filter_ext. intro c.
  destruct (candidate a c); simpl; [|reflexivity].
  destruct (hasLineItem lid c) eqn:E; [|now rewrite andb_false_r].
  rewrite andb_true_r. apply existsb_exists.
  apply hasLineItem_true in E. destruct E as [li [Hli Hid]].
  exists li. split; [assumption|]. apply includes_ids. now rewrite Hid.
Qed.

(** Contracts that are not awarded play no part in the search. *)
Lemma search_ignores_not_awarded (s p : option string) (ids : list string) :
  searchExistingContracts
    (filter (fun c => Status_eqb (status c) Awarded) contracts) s p ids =
  searchExistingContracts contracts s p ids.
Proof.
  unfold searchExistingContracts. rewrite filter_twice.
  apply filter_ext. intro c.
  now destruct (Status_eqb (status c) Awarded).
Qed.

End Store.

Lemma filter_flat_map_comm {A B} (f : B -> bool) (g : A -> list B) (l : list A) :
  filter f (flat_map g l) = flat_map (fun x => filter f (g x)) l.
Proof.
  induction l as [|x l IH]; simpl; [reflexivity|].
  now rewrite filter_app, IH.
Qed.

Lemma find_hd_filter {A} (f : A -> bool) (l : list A) :
  find f l = hd_error (filter f l).
Proof.
  induction l as [|x l IH]; simpl; [reflexivity|].
  now destruct (f x).
Qed.

Lemma nth_error_0_hd {A} (l : list A) : nth_error l 0 = hd_error l.
Proof. now destruct l. Qed.

Lemma truthy_orElse (o : option string) :
  negb (String.eqb (JS.orElse o "") "") = JS.truthy o.
Proof.
  destruct o as [s|]; simpl; [|reflexivity].
  destruct (String.eqb s "") eqn:E; simpl; [reflexivity|now rewrite E].
Qed.

Lemma truthy_Some (o : option string) :
  JS.truthy o = true <-> exists s, o = Some s /\ s <> "".
Proof.
  destruct o as [s|]; simpl.
  - rewrite negb_true_iff, String.eqb_neq. split.
    + intro H. now exists s.
    + intros [t [E H]]. now inversion E; subst.
  - split; [discriminate|]. intros [t [E _]]. discriminate.
Qed.

(** ** Candidates for the semantic comparison *)

Lemma matches_of_contract (newLineItem : Entry) (c : Contract) :
  filter (fun m => negb (String.eqb (vm_details m) ""))
    (map (matchOf c)
       (filter (fun li => String.eqb (lineItemId li) (lineItemId newLineItem))
          (lineItems c))) =
  map (matchOf c) (filter (comparable newLineItem) (lineItems c)).
Proof.
  induction (lineItems c) as [|li ls IH]; simpl; [reflexivity|].
  change (comparable newLineItem li)
    with (String.eqb (lineItemId li) (lineItemId newLineItem) && JS.truthy (details li)).
  destruct (String.eqb (lineItemId li) (lineItemId newLineItem)); simpl;
    [|exact IH].
  rewrite truthy_orElse. destruct (JS.truthy (details li)); simpl; now rewrite IH.
Qed.

Lemma variableCostMatches_flat (newLineItem : Entry) (cs : list Contract) :
  variableCostMatches newLineItem cs =
  flat_map (fun c => map (matchOf c) (filter (comparable newLineItem) (lineItems c))) cs.
Proof.
  unfold variableCostMatches. rewrite filter_flat_map_comm.
  apply flat_map_ext. intro c. apply matches_of_contract.
Qed.

(** The first element of [variableCostMatches] comes from the first contract
    that has a comparable line item, and from its first such line item. *)
Lemma variableCostMatches_head (newLineItem : Entry) (cs : list Contract) :
  hd_error (variableCostMatches newLineItem cs) =
  option_map (fun cl => matchOf (fst cl) (snd cl)) (firstComparable newLineItem cs).
Proof.
  rewrite variableCostMatches_flat. unfold firstComparable.
  induction cs as [|c cs IH]; simpl; [reflexivity|].
  destruct (existsb (comparable newLineItem) (lineItems c)) eqn:E.
  - rewrite (find_hd_filter (comparable newLineItem) (lineItems c)).
    apply existsb_exists in E. destruct E as [li [Hli Hc]].
    destruct (filter (comparable newLineItem) (lineItems c)) as [|l0 ls] eqn:F.
    + exfalso. rewrite filter_nil_iff in F. rewrite (F li Hli) in Hc. discriminate.
    + reflexivity.
  - assert (F : filter (comparable newLineItem) (lineItems c) = []).
    { apply filter_nil_iff. intros li Hli.
      destruct (comparable newLineItem li) eqn:Hc; [|reflexivity].
      rewrite <- E. symmetry. apply existsb_exists. now exists li. }
    rewrite F. simpl. exact IH.
Qed.

Lemma firstComparable_None (newLineItem : Entry) (cs : list Contract) :
  firstComparable newLineItem cs = None <->
  forall c li, In c cs -> In li (lineItems c) ->
               lineItemId li = lineItemId newLineItem ->
               JS.truthy (details li) = false.
Proof.
  split.
  - intros H c li Hc Hli Hid.
    destruct (JS.truthy (details li)) eqn:T; [exfalso|reflexivity].
    assert (Hcmp : comparable newLineItem li = true).
    { unfold comparable. rewrite T, andb_true_r. now apply String.eqb_eq. }
    unfold firstComparable in H.
    destruct (find (fun c => existsb (comparable newLineItem) (lineItems c)) cs)
      as [c0|] eqn:F.
    + apply find_some in F. destruct F as [_ F]. apply existsb_exists in F.
      destruct F as [l0 [Hl0 Hc0]].
      destruct (find (comparable newLineItem) (lineItems c0)) eqn:G; [discriminate|].
      rewrite (find_none _ _ G l0 Hl0) in Hc0. discriminate.
    + pose proof (find_none _ _ F c Hc) as N. simpl in N.
      assert (E : existsb (comparable newLineItem) (lineItems c) = true)
        by (apply existsb_exists; now exists li).
      rewrite N in E. discriminate.
  - intro H. unfold firstComparable.
    destruct (find (fun c => existsb (comparable newLineItem) (lineItems c)) cs)
      as [c0|] eqn:F; [|reflexivity].
    apply find_some in F. destruct F as [Hc0 F]. apply existsb_exists in F.
    destruct F as [l0 [Hl0 Hcmp]]. unfold comparable in Hcmp.
    apply andb_true_iff in Hcmp. destruct Hcmp as [Hid T].
    apply String.eqb_eq in Hid. rewrite (H c0 l0 Hc0 Hl0 Hid) in T. discriminate.
Qed.

Lemma firstComparable_Some (newLineItem : Entry) (cs : list Contract)
    (c : Contract) (li : Entry) :
  firstComparable newLineItem cs = Some (c, li) ->
  In c cs /\ In li (lineItems c) /\ lineItemId li = lineItemId newLineItem /\
  exists d, details li = Some d /\ d <> "" /\ vm_details (matchOf c li) = d.
Proof.
  unfold firstComparable.
  destruct (find (fun c => existsb (comparable newLineItem) (lineItems c)) cs)
    as [c0|] eqn:F; [|discriminate].
  destruct (find (comparable newLineItem) (lineItems c0)) as [l0|] eqn:G;
    [|discriminate].
  intro E. inversion E; subst. apply find_some in F, G.
  destruct F as [Hc _]. destruct G as [Hli Hcmp].
  unfold comparable in Hcmp. apply andb_true_iff in Hcmp.
  destruct Hcmp as [Hid T]. apply String.eqb_eq in Hid.
  apply truthy_Some in T. destruct T as [d [Hd Hne]].
  repeat split; auto. exists d. repeat split; auto.
  simpl. rewrite Hd. simpl. apply String.eqb_neq in Hne. now rewrite Hne.
Qed.

Lemma flat_map_singleton {A B} (f : A -> B) (l : list A) :
  flat_map (fun x => [f x]) l = map f l.
Proof. induction l as [|x l IH]; simpl; [reflexivity|now rewrite IH]. Qed.

(** ** The semantic comparison *)

Section Detect.

Variable provider : string -> string -> option DuplicateAnalysis.

Lemma generateObject_run (prompt : string) (w : World) :
  generateObject provider systemPrompt prompt w =
  (oracle provider prompt, addPrompts w [prompt]).
Proof. reflexivity. Qed.

Lemma oracle_schema (prompt : string) (o : DuplicateAnalysis) :
  oracle provider prompt = Some o ->
  provider systemPrompt prompt = Some o /\ duplicateAnalysisSchema o = true.
Proof.
  unfold oracle, resultOf, generateObject, bind, logPrompt, ret; simpl.
  destruct (provider systemPrompt prompt) as [o'|]; [|discriminate].
  destruct (duplicateAnalysisSchema o') eqn:E; [|discriminate].
  intro H; inversion H; subst; auto.
Qed.

Lemma oracle_accepts (prompt : string) (o : DuplicateAnalysis) :
  provider systemPrompt prompt = Some o -> duplicateAnalysisSchema o = true ->
  oracle provider prompt = Some o.
Proof.
  intros Hp Hs.
  unfold oracle, resultOf, generateObject, bind, logPrompt, ret; simpl.
  now rewrite Hp, Hs.
Qed.

(** Nothing to compare with: the result is fixed and the world untouched. *)
Lemma detect_no_comparable (newLineItem : Entry) (cs : list Contract) (w : World) :
  firstComparable newLineItem cs = None ->
  detectVariableCostDuplicates provider newLineItem cs w = (noComparison, w).
Proof.
  intro H. pose proof (variableCostMatches_head newLineItem cs) as Hh.
  rewrite H in Hh. simpl in Hh. unfold detectVariableCostDuplicates.
  destruct (variableCostMatches newLineItem cs); [reflexivity|discriminate].
Qed.

(** Something to compare with: one prompt is sent, built from the first
    comparable line item, and the result is the model's or the fallback's. *)
Lemma detect_comparable (newLineItem : Entry) (cs : list Contract)
    (c : Contract) (li : Entry) (w : World) :
  firstComparable newLineItem cs = Some (c, li) ->
  let prompt := comparisonPrompt (details newLineItem) (vm_details (matchOf c li)) in
  detectVariableCostDuplicates provider newLineItem cs w =
  (match oracle provider prompt with
   | Some object =>
       {| isDuplicate :=
            is_duplicate object || Qgtb (similarity_score object) (7 # 10);
          similarityScore := similarity_score object;
          reasoning := analysis_reasoning object;
          matchingContractId := Some (id c) |}
   | None => keywordFallback newLineItem (matchOf c li)
   end,
   addPrompts w [prompt]).
Proof.
  intros H prompt. pose proof (variableCostMatches_head newLineItem cs) as Hh.
  rewrite H in Hh. simpl in Hh. unfold detectVariableCostDuplicates.
  destruct (variableCostMatches newLineItem cs) as [|m ms]; [discriminate|].
  simpl in Hh. inversion Hh; subst m. simpl.
  rewrite bind_run, generateObject_run. subst prompt. simpl.
  now destruct (oracle provider _).
Qed.

Lemma quiet_detect (newLineItem : Entry) (cs : list Contract) :
  quiet (detectVariableCostDuplicates provider newLineItem cs).
Proof.
  intro w. unfold resultOf, promptsOf.
  destruct (firstComparable newLineItem cs) as [[c li]|] eqn:F.
  - rewrite !(detect_comparable _ _ _ _ _ F). simpl. reflexivity.
  - rewrite !(detect_no_comparable _ _ _ F). simpl. now rewrite addPrompts_nil.
Qed.

(** The verdict of [detectVariableCostDuplicates] always names a contract
    when it is positive. *)
Lemma detect_result_cases (newLineItem : Entry) (cs : list Contract) :
  let r := resultOf (detectVariableCostDuplicates provider newLineItem cs) in
  (firstComparable newLineItem cs = None /\ r = noComparison) \/
  (exists c li, firstComparable newLineItem cs = Some (c, li) /\
                matchingContractId r = Some (id c)).
Proof.
  unfold resultOf.
  destruct (firstComparable newLineItem cs) as [[c li]|] eqn:F.
  - right. exists c, li. split; [reflexivity|].
    rewrite (detect_comparable _ _ _ _ _ F). simpl.
    now destruct (oracle provider _).
  - left. split; [reflexivity|]. now rewrite (detect_no_comparable _ _ _ F).
Qed.

End Detect.

(** ** The loop over the proposed line items *)

Section Evaluation.

Variable contracts : list Contract.
Variable lineItemDefs : list LineItem.
Variable provider : string -> string -> option DuplicateAnalysis.

Lemma quiet_checkLineItem (existing : list Contract) (dups : list Finding)
    (e : Entry) :
  quiet (checkLineItem lineItemDefs provider existing dups e).
Proof.
  unfold checkLineItem.
  destruct (getLineItemDetails lineItemDefs (lineItemId e)) as [li|];
    [|apply quiet_ret].
  destruct (0 <? List.length _); [|apply quiet_ret].
  destruct (li_type li).
  - apply quiet_forOf. intros; apply quiet_ret.
  - apply quiet_bind; [apply quiet_detect|].
    intro r. destruct (isDuplicate r && JS.truthy (matchingContractId r));
      apply quiet_ret.
Qed.

Lemma entryFindings_undefined (existing : list Contract) (e : Entry) :
  getLineItemDetails lineItemDefs (lineItemId e) = None ->
  entryFindings lineItemDefs provider existing e = [].
Proof.
  intro H. unfold entryFindings, checkLineItem. now rewrite H.
Qed.

Lemma entryFindings_fixed (existing : list Contract) (e : Entry) (li : LineItem) :
  getLineItemDetails lineItemDefs (lineItemId e) = Some li ->
  li_type li = FixedCost ->
  entryFindings lineItemDefs provider existing e =
  map (exactFinding e li) (filter (hasLineItem (lineItemId e)) existing).
Proof.
  intros H T. unfold entryFindings, checkLineItem. rewrite H, T.
  fold (hasLineItem (lineItemId e)).
  destruct (filter (hasLineItem (lineItemId e)) existing) as [|c cs] eqn:F;
    [reflexivity|].
  cbv beta iota zeta. change (0 <? List.length (c :: cs)) with true.
  cbv iota.
  rewrite (resultOf_forOf_append _ (fun c => [exactFinding e li c])).
  - simpl. now rewrite flat_map_singleton.
  - intros; apply quiet_ret.
  - reflexivity.
Qed.

Lemma entryFindings_variable (existing : list Contract) (e : Entry) (li : LineItem) :
  getLineItemDetails lineItemDefs (lineItemId e) = Some li ->
  li_type li = VariableCost ->
  let cwl := filter (hasLineItem (lineItemId e)) existing in
  let r := resultOf (detectVariableCostDuplicates provider e cwl) in
  entryFindings lineItemDefs provider existing e =
  if isDuplicate r && JS.truthy (matchingContractId r)
  then [semanticFinding e li cwl r] else [].
Proof.
  intros H T cwl r. unfold entryFindings, checkLineItem. rewrite H, T.
  fold (hasLineItem (lineItemId e)). fold cwl.
  destruct cwl as [|c cs] eqn:F.
  - subst r. unfold resultOf.
    rewrite (detect_no_comparable provider e [] blank); reflexivity.
  - cbv beta iota zeta. change (0 <? List.length (c :: cs)) with true.
    cbv iota. rewrite resultOf_bind.
    + fold r. now destruct (isDuplicate r && JS.truthy (matchingContractId r)).
    + apply quiet_detect.
    + intro a. destruct (isDuplicate a && JS.truthy (matchingContractId a));
        apply quiet_ret.
Qed.

(** One turn of the loop appends to [duplicates] what the line item adds. *)
Lemma checkLineItem_result (existing : list Contract) (dups : list Finding)
    (e : Entry) :
  resultOf (checkLineItem lineItemDefs provider existing dups e) =
  dups ++ entryFindings lineItemDefs provider existing e.
Proof.
  unfold entryFindings, checkLineItem.
  destruct (getLineItemDetails lineItemDefs (lineItemId e)) as [li|];
    [|unfold resultOf, ret; simpl; now rewrite app_nil_r].
  destruct (0 <? List.length _);
    [|unfold resultOf, ret; simpl; now rewrite app_nil_r].
  destruct (li_type li).
  - rewrite !(resultOf_forOf_append _ (fun c => [exactFinding e li c]));
      try reflexivity; intros; apply quiet_ret.
  - rewrite !resultOf_bind; try apply quiet_detect;
      try (intro a; destruct (isDuplicate a && JS.truthy (matchingContractId a));
           apply quiet_ret).
    destruct (isDuplicate _ && JS.truthy _); unfold resultOf, ret; simpl;
      [reflexivity|now rewrite app_nil_r].
Qed.

Lemma quiet_findDuplicates (a : AwardData) :
  quiet (findDuplicates contracts lineItemDefs provider a).
Proof. apply quiet_forOf. intros; apply quiet_checkLineItem. Qed.

(** The findings are, in the order of the proposal, what each proposed line
    item adds. *)
Lemma findings_flat_map (a : AwardData) :
  findings contracts lineItemDefs provider a =
  flat_map (entryFindings lineItemDefs provider (candidatesFor contracts a))
    (award_lineItems a).
Proof.
  unfold findings, findDuplicates. fold (candidatesFor contracts a).
  rewrite (resultOf_forOf_append _
             (entryFindings lineItemDefs provider (candidatesFor contracts a))).
  - reflexivity.
  - intros; apply quiet_checkLineItem.
  - intros; apply checkLineItem_result.
Qed.

Lemma findDuplicates_run (a : AwardData) (w : World) :
  findDuplicates contracts lineItemDefs provider a w =
  (findings contracts lineItemDefs provider a,
   addPrompts w (promptsOf (findDuplicates contracts lineItemDefs provider a))).
Proof. apply quiet_findDuplicates. Qed.

End Evaluation.

(** ** Findings and the contracts they come from *)

Section Findings.

Variable contracts : list Contract.
Variable lineItemDefs : list LineItem.
Variable provider : string -> string -> option DuplicateAnalysis.

(** A turn of the loop looks at the contracts found only through those that
    hold the proposed identifier. *)
Lemma entryFindings_ext (ex1 ex2 : list Contract) (e : Entry) :
  filter (hasLineItem (lineItemId e)) ex1 = filter (hasLineItem (lineItemId e)) ex2 ->
  entryFindings lineItemDefs provider ex1 e = entryFindings lineItemDefs provider ex2 e.
Proof.
  intro H. unfold entryFindings, checkLineItem.
  fold (hasLineItem (lineItemId e)). now rewrite H.
Qed.

Lemma entryFindings_candidates (a : AwardData) (e : Entry) :
  In e (award_lineItems a) ->
  entryFindings lineItemDefs provider (candidatesFor contracts a) e =
  entryFindings lineItemDefs provider (filter (candidate a) contracts) e.
Proof.
  intro Hin. apply entryFindings_ext. unfold candidatesFor.
  rewrite contractsWithLineItem_collapse by (now apply in_map).
  now rewrite filter_twice.
Qed.

(** The findings only depend on the awarded contracts at the proposal's
    site and project reference. *)
Lemma findings_by_candidates (a : AwardData) :
  findings contracts lineItemDefs provider a =
  flat_map (entryFindings lineItemDefs provider (filter (candidate a) contracts))
    (award_lineItems a).
Proof.
  rewrite findings_flat_map.
  assert (H : forall l, (forall e, In e l -> In e (award_lineItems a)) ->
              flat_map (entryFindings lineItemDefs provider (candidatesFor contracts a)) l =
              flat_map (entryFindings lineItemDefs provider (filter (candidate a) contracts)) l).
  { induction l as [|e l IH]; intro Hl; simpl; [reflexivity|].
    rewrite entryFindings_candidates by (apply Hl; now left).
    rewrite IH; [reflexivity|]. intros e' He'. apply Hl. now right. }
  apply H. auto.
Qed.

(** Every finding names a contract among those the turn looked at. *)
Lemma entryFindings_source (existing : list Contract) (e : Entry) (f : Finding) :
  In f (entryFindings lineItemDefs provider existing e) ->
  exists c, In c existing /\ hasLineItem (lineItemId e) c = true /\
            existingContractId f = id c /\ f_lineItemId f = lineItemId e.
Proof.
  intro Hf.
  destruct (getLineItemDetails lineItemDefs (lineItemId e)) as [li|] eqn:D.
  - destruct (li_type li) eqn:T.
    + rewrite (entryFindings_fixed _ _ _ _ _ D T) in Hf.
      apply in_map_iff in Hf. destruct Hf as [c [<- Hc]].
      apply filter_In in Hc. destruct Hc as [Hc Hh].
      exists c. auto.
    + rewrite (entryFindings_variable _ _ _ _ _ D T) in Hf.
      cbv zeta in Hf.
      set (cwl := filter (hasLineItem (lineItemId e)) existing) in *.
      set (r := resultOf (detectVariableCostDuplicates provider e cwl)) in *.
      destruct (isDuplicate r && JS.truthy (matchingContractId r)) eqn:V;
        [|destruct Hf].
      destruct Hf as [<-|[]].
      apply andb_true_iff in V. destruct V as [Vd Vt].
      destruct (detect_result_cases provider e cwl) as [[_ Hr]|[c [l0 [F Hm]]]];
        fold r in Hr || fold r in Hm.
      * rewrite Hr in Vd. discriminate.
      * apply firstComparable_Some in F. destruct F as [Hc _].
        unfold cwl in Hc. apply filter_In in Hc. destruct Hc as [Hc Hh].
        exists c. repeat split; auto. simpl. rewrite Hm in *. simpl in *.
        destruct (String.eqb (id c) ""); [discriminate|reflexivity].
  - rewrite (entryFindings_undefined _ _ _ _ D) in Hf. destruct Hf.
Qed.

End Findings.

(** ** Properties of the findings *)

Section FindingClaims.

Variable contracts : list Contract.
Variable lineItemDefs : list LineItem.
Variable provider : string -> string -> option DuplicateAnalysis.

(** C2.  The contract search made for a proposal returns exactly the
    contracts of the store that are awarded, have the proposal's site and
    project reference, and hold a line item whose identifier is among the
    proposed ones.  Consequently every finding names such a contract, and
    the findings are the same when every pending or cancelled contract is
    taken out of the store. *)
Theorem search_returns_awarded_matches (a : AwardData) :
  (forall c,
      In c (candidatesFor contracts a) <->
      In c contracts /\ status c = Awarded /\
      award_siteId a = Some (siteId c) /\ award_porId a = Some (porId c) /\
      exists li, In li (lineItems c) /\
                 In (lineItemId li) (map lineItemId (award_lineItems a))) /\
  (forall f,
      In f (findings contracts lineItemDefs provider a) ->
      exists c, In c contracts /\ status c = Awarded /\
                award_siteId a = Some (siteId c) /\
                award_porId a = Some (porId c) /\
                hasLineItem (f_lineItemId f) c = true /\
                existingContractId f = id c) /\
  findings (filter (fun c => Status_eqb (status c) Awarded) contracts)
    lineItemDefs provider a =
  findings contracts lineItemDefs provider a.
Proof.
  split; [|split].
  - intro c. apply search_In.
  - intros f Hf. rewrite findings_by_candidates in Hf.
    apply in_flat_map in Hf. destruct Hf as [e [_ Hf]].
    apply entryFindings_source in Hf.
    destruct Hf as [c [Hc [Hh [Hid Hl]]]].
    apply filter_In in Hc. destruct Hc as [Hc Hcand].
    apply candidate_true in Hcand. destruct Hcand as [Hs [Hsite Hpor]].
    exists c. rewrite Hl. auto 8.
  - unfold findings, findDuplicates.
    now rewrite search_ignores_not_awarded.
Qed.

(** C6.  A proposed line item whose definition is fixed-cost adds to the
    findings exactly one exact-match finding for each awarded contract of
    the store that has the proposal's site and project reference and holds
    a line item with the same identifier, in the order of the store and
    without merging contracts; the findings of the evaluation contain that
    block. *)
Theorem fixed_cost_one_finding_per_contract (a : AwardData) (e : Entry)
    (li : LineItem) :
  In e (award_lineItems a) ->
  getLineItemDetails lineItemDefs (lineItemId e) = Some li ->
  li_type li = FixedCost ->
  let matching :=
    filter (fun c => candidate a c && hasLineItem (lineItemId e) c) contracts in
  entryFindings lineItemDefs provider (candidatesFor contracts a) e =
    map (exactFinding e li) matching /\
  exists before after,
    findings contracts lineItemDefs provider a =
    before ++ map (exactFinding e li) matching ++ after.
Proof.
  intros Hin D T matching.
  assert (E : entryFindings lineItemDefs provider (candidatesFor contracts a) e =
              map (exactFinding e li) matching).
  { rewrite (entryFindings_fixed _ _ _ _ _ D T). unfold candidatesFor.
    rewrite contractsWithLineItem_collapse by (now apply in_map).
    reflexivity. }
  split; [exact E|].
  apply in_split in Hin. destruct Hin as [l1 [l2 Hl]].
  exists (flat_map (entryFindings lineItemDefs provider (candidatesFor contracts a)) l1),
         (flat_map (entryFindings lineItemDefs provider (candidatesFor contracts a)) l2).
  rewrite findings_flat_map, Hl, flat_map_app. simpl. now rewrite E.
Qed.

(** C8.  A proposed line item whose identifier has no definition in the
    store is passed over: its turn of the loop leaves the findings and the
    world as they were (no finding, no event, no prompt), and the findings
    of the evaluation are those of the proposal without that entry. *)
Theorem undefined_line_item_skipped (a : AwardData) (l1 l2 : list Entry)
    (e : Entry) :
  award_lineItems a = l1 ++ e :: l2 ->
  getLineItemDetails lineItemDefs (lineItemId e) = None ->
  (forall existing duplicates w,
      checkLineItem lineItemDefs provider existing duplicates e w =
      (duplicates, w)) /\
  findings contracts lineItemDefs provider a =
  findings contracts lineItemDefs provider
    {| award_siteId := award_siteId a; award_porId := award_porId a;
       award_lineItems := l1 ++ l2 |}.
Proof.
  intros Hl D. split.
  - intros existing duplicates w. unfold checkLineItem. now rewrite D.
  - rewrite !findings_by_candidates. simpl. rewrite Hl, !flat_map_app. simpl.
    rewrite (entryFindings_undefined _ _ _ _ D). reflexivity.
Qed.

End FindingClaims.

Lemma fixed_cost_one_finding_per_contract_witness :
  In Scenarios.switchEntry (award_lineItems Scenarios.scenarioA) /\
  getLineItemDetails MOCK_LINE_ITEMS (lineItemId Scenarios.switchEntry) =
    Some Scenarios.networkSwitch /\
  li_type Scenarios.networkSwitch = FixedCost /\
  entryFindings MOCK_LINE_ITEMS Scenarios.unreachable
    (candidatesFor MOCK_CONTRACTS Scenarios.scenarioA) Scenarios.switchEntry =
  map (exactFinding Scenarios.switchEntry Scenarios.networkSwitch)
    (filter (fun c => candidate Scenarios.scenarioA c &&
                      hasLineItem (lineItemId Scenarios.switchEntry) c)
       MOCK_CONTRACTS).
Proof.
  assert (H1 : In Scenarios.switchEntry (award_lineItems Scenarios.scenarioA))
    by (left; reflexivity).
  assert (H2 : getLineItemDetails MOCK_LINE_ITEMS (lineItemId Scenarios.switchEntry) =
               Some Scenarios.networkSwitch) by reflexivity.
  assert (H3 : li_type Scenarios.networkSwitch = FixedCost) by reflexivity.
  split; [exact H1|]. split; [exact H2|]. split; [exact H3|].
  exact (proj1 (fixed_cost_one_finding_per_contract MOCK_CONTRACTS MOCK_LINE_ITEMS
                  Scenarios.unreachable Scenarios.scenarioA Scenarios.switchEntry
                  Scenarios.networkSwitch H1 H2 H3)).
Defined.

Lemma undefined_line_item_skipped_witness :
  getLineItemDetails MOCK_LINE_ITEMS (lineItemId Scenarios.unknownEntry) = None /\
  findings MOCK_CONTRACTS MOCK_LINE_ITEMS Scenarios.unreachable Scenarios.withUnknown =
  findings MOCK_CONTRACTS MOCK_LINE_ITEMS Scenarios.unreachable Scenarios.scenarioA.
Proof.
  assert (H : getLineItemDetails MOCK_LINE_ITEMS (lineItemId Scenarios.unknownEntry) = None)
    by reflexivity.
  split; [exact H|].
  exact (proj2 (undefined_line_item_skipped MOCK_CONTRACTS MOCK_LINE_ITEMS
                  Scenarios.unreachable Scenarios.withUnknown []
                  [Scenarios.switchEntry] Scenarios.unknownEntry eq_refl H)).
Defined.

(** ** Properties of the semantic comparison *)

Lemma Qgtb_true (a b : Q) : Qgtb a b = true <-> (b < a)%Q.
Proof.
  unfold Qgtb. rewrite negb_true_iff. split.
  - intro H. apply Qnot_le_lt. intro L. apply Qle_bool_iff in L. congruence.
  - intro H. destruct (Qle_bool a b) eqn:E; [|reflexivity].
    apply Qle_bool_iff in E. exfalso. now apply (Qlt_not_le b a).
Qed.

(** The pieces of [split] that are not empty are the words of the text. *)
Lemma splitFrom_words (s : string) :
  forall inRun cur, (inRun = true -> cur = "") ->
  filter (fun w => negb (String.eqb w "")) (JS.splitFrom inRun cur s) =
  wordsFrom cur s.
Proof.
  induction s as [|c s IH]; intros inRun cur Hrun; simpl.
  - now destruct (String.eqb cur "").
  - destruct (JS.isSpace c).
    + destruct inRun.
      * rewrite (Hrun eq_refl). simpl. now apply IH.
      * simpl. destruct (String.eqb cur ""); simpl; now rewrite IH.
    + apply IH. discriminate.
Qed.

Lemma keywords_are_tokens (s : string) : keywords s = tokens s.
Proof.
  unfold keywords, tokens, JS.split_ws.
  rewrite <- (splitFrom_words s false "") by discriminate.
  rewrite filter_twice. apply filter_ext. intro w.
  destruct w; reflexivity.
Qed.

Lemma fallback_is_lexical (newLineItem : Entry) (firstMatch : VariableCostMatch) :
  let newText := JS.toLowerCase (JS.orElse (details newLineItem) "") in
  let existingText := JS.toLowerCase (vm_details firstMatch) in
  similarityScore (keywordFallback newLineItem firstMatch) =
    overlapFraction newText existingText /\
  isDuplicate (keywordFallback newLineItem firstMatch) =
    lexicalVerdict newText existingText.
Proof.
  intros newText existingText.
  assert (E : similarityScore (keywordFallback newLineItem firstMatch) =
              overlapFraction newText existingText).
  { unfold keywordFallback, overlapFraction, overlapCount. simpl.
    fold newText existingText. rewrite keywords_are_tokens.
    now destruct (List.length (tokens newText)). }
  split; [exact E|].
  unfold lexicalVerdict. rewrite <- E. reflexivity.
Qed.

Lemma comparisonPrompt_placeholder (d : option string) (existing : string) :
  JS.truthy d = false ->
  comparisonPrompt d existing = comparisonPrompt (Some noDetailsPlaceholder) existing.
Proof.
  intro H. unfold comparisonPrompt.
  replace (JS.orElse d noDetailsPlaceholder) with noDetailsPlaceholder; [reflexivity|].
  destruct d as [s|]; simpl in *; [|reflexivity].
  destruct (String.eqb s ""); [reflexivity|discriminate].
Qed.

Section DetectClaims.

Variable lineItemDefs : list LineItem.
Variable provider : string -> string -> option DuplicateAnalysis.

(** C3.  When the semantic comparison of a proposed line item reaches the
    model and the model answers, the verdict is positive as soon as the
    answer has is_duplicate = true or a similarity_score above 0.7: either
    signal is enough. *)
Theorem oracle_verdict_is_disjunction (newLineItem : Entry) (cs : list Contract)
    (c : Contract) (li : Entry) (o : DuplicateAnalysis) (w : World) :
  firstComparable newLineItem cs = Some (c, li) ->
  oracle provider
    (comparisonPrompt (details newLineItem) (vm_details (matchOf c li))) = Some o ->
  is_duplicate o = true \/ (7 # 10 < similarity_score o)%Q ->
  isDuplicate (fst (detectVariableCostDuplicates provider newLineItem cs w)) = true.
Proof.
  intros F O V. rewrite (detect_comparable provider _ _ _ _ w F). cbv zeta.
  rewrite O. simpl. apply orb_true_iff.
  destruct V as [V|V]; [now left|right]. now apply Qgtb_true.
Qed.

(** C4, as amended.  When the model cannot be used, the comparison still
    returns a result: both texts are put in lower case, the tokens of the
    new text longer than 3 are counted, the score is the fraction of them
    that occur in the existing text (0 when there is none), and the
    verdict is positive exactly when that fraction exceeds one half. *)
Theorem fallback_uses_lexical_overlap (newLineItem : Entry) (cs : list Contract)
    (c : Contract) (li : Entry) (w : World) :
  firstComparable newLineItem cs = Some (c, li) ->
  oracle provider
    (comparisonPrompt (details newLineItem) (vm_details (matchOf c li))) = None ->
  let newText := JS.toLowerCase (JS.orElse (details newLineItem) "") in
  let existingText := JS.toLowerCase (vm_details (matchOf c li)) in
  let r := fst (detectVariableCostDuplicates provider newLineItem cs w) in
  similarityScore r = overlapFraction newText existingText /\
  (isDuplicate r = true <-> (1 # 2 < overlapFraction newText existingText)%Q) /\
  matchingContractId r = Some (id c).
Proof.
  intros F O newText existingText r. subst r.
  rewrite (detect_comparable provider _ _ _ _ w F). cbv zeta.
  rewrite O. simpl fst.
  destruct (fallback_is_lexical newLineItem (matchOf c li)) as [Hs Hv].
  split; [exact Hs|]. split; [|reflexivity].
  rewrite Hv. unfold lexicalVerdict. apply Qgtb_true.
Qed.

(** C7, as amended.  For a proposed line item whose definition is
    variable-cost: when no contract looked at holds a line item with the
    same identifier and details that are not empty, the comparison returns
    isDuplicate false, score 0 and the rationale `No variable-cost items
    with details found to compare', and does not call the model; otherwise
    the comparison is made with the details of the first such line item
    only, whatever the other contracts hold; and the entry adds at most one
    finding, a semantic one. *)
Theorem one_representative_per_entry (existing : list Contract) (e : Entry)
    (li : LineItem) (w : World) :
  getLineItemDetails lineItemDefs (lineItemId e) = Some li ->
  li_type li = VariableCost ->
  let cwl := filter (hasLineItem (lineItemId e)) existing in
  ((forall c l0, In c cwl -> In l0 (lineItems c) ->
                 lineItemId l0 = lineItemId e -> JS.truthy (details l0) = false) ->
   detectVariableCostDuplicates provider e cwl w = (noComparison, w)) /\
  (forall c l0, firstComparable e cwl = Some (c, l0) ->
     exists d, details l0 = Some d /\ d <> "" /\
       fst (detectVariableCostDuplicates provider e cwl w) =
         match oracle provider (comparisonPrompt (details e) d) with
         | Some o =>
             {| isDuplicate := is_duplicate o || Qgtb (similarity_score o) (7 # 10);
                similarityScore := similarity_score o;
                reasoning := analysis_reasoning o;
                matchingContractId := Some (id c) |}
         | None => keywordFallback e (matchOf c l0)
         end /\
       (forall p, In p (promptsOf (detectVariableCostDuplicates provider e cwl)) ->
                  p = comparisonPrompt (details e) d)) /\
  List.length (entryFindings lineItemDefs provider existing e) <= 1 /\
  (forall f, In f (entryFindings lineItemDefs provider existing e) ->
             matchType f = Semantic).
Proof.
  intros D T cwl. split; [|split].
  - intro H. apply detect_no_comparable. now apply firstComparable_None.
  - intros c l0 F. unfold promptsOf.
    rewrite (detect_comparable provider _ _ _ _ w F).
    rewrite (detect_comparable provider _ _ _ _ blank F). cbv zeta.
    apply firstComparable_Some in F.
    destruct F as (_ & _ & _ & d & Hd & Hne & Hm).
    exists d. rewrite Hm. split; [exact Hd|]. split; [exact Hne|].
    split; [reflexivity|]. simpl. intros p [<-|[]]. reflexivity.
  - rewrite (entryFindings_variable _ _ _ _ _ D T). cbv zeta.
    destruct (isDuplicate _ && JS.truthy _); simpl; (split; [lia|]);
      intros f Hf.
    + destruct Hf as [<-|[]]. reflexivity.
    + destruct Hf.
Qed.

(** C10.  A proposed variable-cost line item without details, or with
    empty details, is still compared when a contract looked at holds a
    line item with the same identifier and details that are not empty: the
    model is called, every prompt it gets has `No details provided' in the
    place of the new details, and when the model's answer passes the schema
    and is positive the entry is reported as one semantic finding. *)
Theorem missing_details_still_compared (existing : list Contract) (e : Entry)
    (li : LineItem) :
  getLineItemDetails lineItemDefs (lineItemId e) = Some li ->
  li_type li = VariableCost ->
  JS.truthy (details e) = false ->
  (exists c l0, In c existing /\ In l0 (lineItems c) /\
                lineItemId l0 = lineItemId e /\ JS.truthy (details l0) = true) ->
  exists c l0 d,
    firstComparable e (filter (hasLineItem (lineItemId e)) existing) = Some (c, l0) /\
    details l0 = Some d /\
    let prompt := comparisonPrompt (details e) d in
    JS.includes prompt
      ("NEW LINE ITEM:" ++ nl ++ "Details: " ++ dq ++ "No details provided" ++ dq)
      = true /\
    promptsOf (checkLineItem lineItemDefs provider existing [] e) <> [] /\
    (forall p, In p (promptsOf (checkLineItem lineItemDefs provider existing [] e)) ->
               p = prompt) /\
    forall o,
      provider systemPrompt prompt = Some o ->
      duplicateAnalysisSchema o = true ->
      is_duplicate o = true \/ (7 # 10 < similarity_score o)%Q ->
      id c <> "" ->
      exists f,
        entryFindings lineItemDefs provider existing e = [f] /\
        matchType f = Semantic /\ f_lineItemId f = lineItemId e /\
        existingContractId f = id c /\
        f_similarityScore f = Some (similarity_score o) /\
        aiReasoning f = Some (analysis_reasoning o).
Proof.
  intros D T Hnone (c0 & l0 & Hc0 & Hl0 & Hid0 & Ht0).
  set (cwl := filter (hasLineItem (lineItemId e)) existing).
  destruct (firstComparable e cwl) as [[c l1]|] eqn:F.
  - pose proof (firstComparable_Some _ _ _ _ F) as (Hc & Hl1 & Hid1 & d & Hd & Hne & Hm).
    exists c, l1, d. split; [reflexivity|]. split; [exact Hd|]. cbv zeta.
    assert (Hcwl : exists x xs, cwl = x :: xs).
    { destruct cwl as [|x xs]; [destruct Hc|]. now exists x, xs. }
    destruct Hcwl as (x & xs & Hx).
    pose proof (detect_comparable provider e cwl c l1 blank F) as Hrun.
    cbv zeta in Hrun. rewrite Hm in Hrun.
    assert (Hsent : promptsOf (checkLineItem lineItemDefs provider existing [] e) =
                    [comparisonPrompt (details e) d]).
    { unfold promptsOf, checkLineItem. rewrite D, T.
      fold (hasLineItem (lineItemId e)). fold cwl. rewrite Hx.
      change (0 <? List.length (x :: xs)) with true. cbv iota.
      rewrite <- Hx, bind_run, Hrun. simpl fst. simpl snd.
      destruct (oracle provider _);
        match goal with
        | |- context [if ?b then _ else _] => destruct b
        end; reflexivity. }
    split; [|split; [|split]].
    + rewrite (comparisonPrompt_placeholder _ _ Hnone).
      exact (includes_app
               (nl ++ "Compare these variable-cost line items:" ++ nl ++ nl)
               ("NEW LINE ITEM:" ++ nl ++ "Details: " ++ dq ++ "No details provided" ++ dq)
               (nl ++ nl ++ "EXISTING LINE ITEM:" ++ nl ++
                "Details: " ++ dq ++ d ++ dq ++ nl ++ nl ++
                "Are these duplicates? Consider semantic meaning, not just exact text matches." ++
                nl)).
    + rewrite Hsent. discriminate.
    + rewrite Hsent. intros p [<-|[]]. reflexivity.
    + intros o Hp Hs V Hcid.
      pose proof (oracle_accepts provider _ o Hp Hs) as O.
      rewrite (entryFindings_variable _ _ _ _ _ D T). cbv zeta. fold cwl.
      unfold resultOf. rewrite Hrun, O. simpl.
      assert (Hv : is_duplicate o || Qgtb (similarity_score o) (7 # 10) = true).
      { apply orb_true_iff. destruct V as [V|V]; [now left|right].
        now apply Qgtb_true. }
      rewrite Hv. apply String.eqb_neq in Hcid. rewrite Hcid. simpl.
      eexists. split; [reflexivity|]. simpl. rewrite Hcid. auto.
  - exfalso. rewrite firstComparable_None in F.
    assert (Hin : In c0 cwl).
    { apply filter_In. split; [assumption|]. apply hasLineItem_true. now exists l0. }
    rewrite (F c0 l0 Hin Hl0 Hid0) in Ht0. discriminate.
Qed.

End DetectClaims.

(** ** The handler *)

Section Handler.

Variable contracts : list Contract.
Variable lineItemDefs : list LineItem.
Variable provider : string -> string -> option DuplicateAnalysis.
Variable JSON_parse : string -> option AwardData.
Variable streamText : list UIMessage -> list Event.

Lemma writeText_run (text : string) (w : World) :
  writeText text w =
  (tt, {| uuidAt := uuidAt w; drawn := S (drawn w);
          written := written w ++ textEvents (uuidAt w (drawn w)) text;
          prompts := prompts w |}).
Proof.
  unfold writeText, bind, randomUUID, write, textEvents. simpl.
  now rewrite <- !app_assoc.
Qed.

Lemma emitResults_run (a : AwardData) (ds : list Finding) (w : World) :
  written (snd (emitResults a ds w)) =
  written w ++ outcomeEvents (uuidAt w) (drawn w) a ds
                 (warningLevelOf (List.length ds)).
Proof.
  unfold emitResults, outcomeEvents. destruct ds as [|d ds].
  - change (0 <? List.length (@nil Finding)) with false. cbv iota.
    now rewrite writeText_run.
  - change (0 <? List.length (d :: ds)) with true. cbv iota.
    unfold bind at 1. unfold randomUUID at 1.
    unfold bind at 1. unfold write at 1.
    unfold bind at 1. unfold randomUUID at 1.
    unfold bind at 1. unfold write at 1.
    rewrite writeText_run. simpl. now rewrite <- !app_assoc.
Qed.

(** What the handler answers to a request that carries an award. *)
Lemma POST_award (b : Body) (a : AwardData) (w : World) :
  extractAwardData JSON_parse b = Some a ->
  fst (POST contracts lineItemDefs provider JSON_parse streamText b w) =
  {| statusCode := 200;
     body :=
       textEvents (uuidAt w (drawn w)) (statusText a) ++
       outcomeEvents (uuidAt w) (S (drawn w)) a
         (findings contracts lineItemDefs provider a)
         (warningLevelOf
            (List.length (findings contracts lineItemDefs provider a))) |}.
Proof.
  intro E. unfold POST, execute. rewrite E.
  rewrite bind_run, writeText_run. simpl fst. simpl snd.
  rewrite bind_run, findDuplicates_run. simpl fst. simpl snd.
  match goal with
  | |- fst (let (_, w') := emitResults ?a ?ds ?w0 in _) = _ =>
      pose proof (emitResults_run a ds w0) as R;
      destruct (emitResults a ds w0) as [u w1]
  end.
  simpl in *. now rewrite R.
Qed.

(** Without an award the handler only relays the conversational stream. *)
Lemma POST_conversation (b : Body) (w : World) :
  extractAwardData JSON_parse b = None ->
  fst (POST contracts lineItemDefs provider JSON_parse streamText b w) =
  {| statusCode := 200; body := streamText (messages b) |}.
Proof.
  intro E. unfold POST, execute. rewrite E. reflexivity.
Qed.

Lemma warningLevelOf_spec (n : nat) :
  (n = 1 -> warningLevelOf n = low) /\
  (2 <= n <= 3 -> warningLevelOf n = medium) /\
  (4 <= n -> warningLevelOf n = high).
Proof.
  unfold warningLevelOf. repeat split; intro H.
  - now subst.
  - destruct (n =? 1) eqn:E1; [apply Nat.eqb_eq in E1; lia|].
    destruct (n <=? 3) eqn:E3; [reflexivity|apply Nat.leb_gt in E3; lia].
  - destruct (n =? 1) eqn:E1; [apply Nat.eqb_eq in E1; lia|].
    destruct (n <=? 3) eqn:E3; [apply Nat.leb_le in E3; lia|reflexivity].
Qed.

(** A proposal without site or project reference matches no contract. *)
Lemma invalid_no_findings (a : AwardData) :
  structurallyInvalid a -> findings contracts lineItemDefs provider a = [].
Proof.
  intro Hinv.
  destruct (findings contracts lineItemDefs provider a) as [|f fs] eqn:F;
    [reflexivity|exfalso].
  assert (Hf : In f (findings contracts lineItemDefs provider a))
    by (rewrite F; now left).
  rewrite findings_by_candidates in Hf.
  apply in_flat_map in Hf. destruct Hf as [e [_ Hf]].
  apply entryFindings_source in Hf. destruct Hf as [c [Hc _]].
  apply filter_In in Hc. destruct Hc as [_ Hc].
  apply candidate_true in Hc. destruct Hc as (_ & Hs & Hp).
  destruct Hinv as [H|H]; congruence.
Qed.

(** C1, as amended.  A proposal without site identifier or without
    project-reference identifier, in a request that is otherwise well
    formed, is not rejected: the answer has status 200, which is no client
    error, and the proposal is evaluated like any other.  The status message
    comes first and names the missing identifier as `undefined'; no
    contract matches and no finding is made, so the stream ends with the
    message that no duplicate was found. *)
Theorem invalid_proposal_is_evaluated (b : Body) (a : AwardData) (w : World) :
  extractAwardData JSON_parse b = Some a ->
  structurallyInvalid a ->
  let r := fst (POST contracts lineItemDefs provider JSON_parse streamText b w) in
  r = {| statusCode := 200;
         body :=
           textEvents (uuidAt w (drawn w)) (statusText a) ++
           textEvents (uuidAt w (S (drawn w)))
             (successText (List.length (award_lineItems a))) |} /\
  isClientError r = false /\
  findings contracts lineItemDefs provider a = [] /\
  (award_siteId a = None ->
   statusText a =
   ("Checking for duplicates in award:" ++ nl ++
    "- Site: undefined" ++ nl ++
    "- POR: " ++ JS.showString (award_porId a) ++ nl ++
    "- Line Items: " ++ JS.showNat (List.length (award_lineItems a)) ++ nl ++ nl ++
    "Analyzing existing contracts...")%string) /\
  (award_porId a = None ->
   statusText a =
   ("Checking for duplicates in award:" ++ nl ++
    "- Site: " ++ JS.showString (award_siteId a) ++ nl ++
    "- POR: undefined" ++ nl ++
    "- Line Items: " ++ JS.showNat (List.length (award_lineItems a)) ++ nl ++ nl ++
    "Analyzing existing contracts...")%string).
Proof.
  intros E Hinv r.
  assert (Hr : r = {| statusCode := 200;
                      body :=
                        textEvents (uuidAt w (drawn w)) (statusText a) ++
                        textEvents (uuidAt w (S (drawn w)))
                          (successText (List.length (award_lineItems a))) |}).
  { subst r. rewrite (POST_award b a w E), (invalid_no_findings a Hinv).
    reflexivity. }
  split; [exact Hr|]. split; [now rewrite Hr|].
  split; [exact (invalid_no_findings a Hinv)|].
  split; intro H; unfold statusText; rewrite H; reflexivity.
Qed.

(** C5.  In the stream of an evaluation the data chunks are: none when no
    duplicate was found; otherwise the duplicate-warning chunk with the
    findings followed by the duplicate-summary chunk, whose warningLevel is
    low for 1 duplicate, medium for 2 or 3 and high for 4 or more. *)
Theorem warning_level_by_count (b : Body) (a : AwardData) (w : World) :
  extractAwardData JSON_parse b = Some a ->
  let ds := findings contracts lineItemDefs provider a in
  let n := List.length ds in
  let events :=
    body (fst (POST contracts lineItemDefs provider JSON_parse streamText b w)) in
  (n = 0 -> filter isDataEvent events = []) /\
  (0 < n ->
   exists warningId summaryId level,
     filter isDataEvent events =
     [ DataDuplicateWarning warningId ds true;
       DataDuplicateSummary summaryId n (List.length (award_lineItems a)) level ] /\
     (n = 1 -> level = low) /\
     (2 <= n <= 3 -> level = medium) /\
     (4 <= n -> level = high)).
Proof.
  intros E ds n events. subst events n. rewrite (POST_award b a w E).
  fold ds. clearbody ds. simpl body. cbn [filter isDataEvent].
  unfold outcomeEvents. split.
  - intro H. destruct ds; [reflexivity|discriminate].
  - intro H. destruct ds as [|d ds']; [simpl in H; lia|].
    exists (uuidAt w (S (drawn w))), (uuidAt w (S (S (drawn w)))),
           (warningLevelOf (List.length (d :: ds'))).
    split; [reflexivity|]. apply warningLevelOf_spec.
Qed.

(** C9.  Two evaluations of the same proposal against the same store and
    the same model give the same findings in the same order, whatever
    identifiers the runs draw and whatever was streamed or sent before;
    the same holds for the findings that the two responses report. *)
Theorem evaluation_is_deterministic (b : Body) (a : AwardData) (w1 w2 : World) :
  fst (findDuplicates contracts lineItemDefs provider a w1) =
  fst (findDuplicates contracts lineItemDefs provider a w2) /\
  reportedDuplicates
    (fst (POST contracts lineItemDefs provider JSON_parse streamText b w1)) =
  reportedDuplicates
    (fst (POST contracts lineItemDefs provider JSON_parse streamText b w2)).
Proof.
  split.
  - now rewrite !findDuplicates_run.
  - destruct (extractAwardData JSON_parse b) as [a'|] eqn:E.
    + rewrite !(POST_award b a' _ E). unfold reportedDuplicates. simpl body.
      cbn [flat_map app]. unfold outcomeEvents.
      destruct (findings contracts lineItemDefs provider a'); reflexivity.
    + now rewrite !(POST_conversation b _ E).
Qed.

End Handler.

(** ** The properties on the seeded store *)

Import Scenarios.

(** C1, as stated, fails: a proposal without site identifier is answered
    with status 200 and a stream that is not empty. *)
Lemma invalid_proposal_is_not_rejected :
  ~ (forall contracts lineItemDefs provider JSON_parse streamText b a w,
        extractAwardData JSON_parse b = Some a ->
        structurallyInvalid a ->
        body (fst (POST contracts lineItemDefs provider JSON_parse streamText b w)) = [] /\
        isClientError
          (fst (POST contracts lineItemDefs provider JSON_parse streamText b w)) = true).
Proof.
  intro H.
  destruct (H MOCK_CONTRACTS MOCK_LINE_ITEMS unreachable noParse noStream
              (requestOf missingSite) missingSite world0 eq_refl (or_introl eq_refl))
    as [Hbody _].
  vm_compute in Hbody. discriminate.
Qed.

Lemma invalid_proposal_is_evaluated_witness :
  extractAwardData noParse (requestOf missingSite) = Some missingSite /\
  structurallyInvalid missingSite /\
  fst (POST MOCK_CONTRACTS MOCK_LINE_ITEMS unreachable noParse noStream
         (requestOf missingSite) world0) =
  {| statusCode := 200;
     body := textEvents "id-0" (statusText missingSite) ++
             textEvents "id-1" (successText 1) |} /\
  statusText missingSite =
  ("Checking for duplicates in award:" ++ nl ++
   "- Site: undefined" ++ nl ++
   "- POR: por-001" ++ nl ++
   "- Line Items: 1" ++ nl ++ nl ++
   "Analyzing existing contracts...")%string.
Proof.
  split; [reflexivity|]. split; [left; reflexivity|].
  destruct (invalid_proposal_is_evaluated MOCK_CONTRACTS MOCK_LINE_ITEMS
              unreachable noParse noStream (requestOf missingSite) missingSite
              world0 eq_refl (or_introl eq_refl))
    as (Hr & _ & _ & Hsite & _).
  split; [exact Hr|exact (Hsite eq_refl)].
Defined.

Lemma oracle_verdict_is_disjunction_witness :
  firstComparable fiberEntry MOCK_CONTRACTS = Some (contract001, contract001Fiber) /\
  oracle scoringProvider
    (comparisonPrompt (details fiberEntry) (vm_details (matchOf contract001 contract001Fiber)))
    = Some scoresHigh /\
  is_duplicate scoresHigh = false /\
  (7 # 10 < similarity_score scoresHigh)%Q /\
  isDuplicate
    (fst (detectVariableCostDuplicates scoringProvider fiberEntry MOCK_CONTRACTS world0))
  = true.
Proof.
  assert (Hs : (7 # 10 < similarity_score scoresHigh)%Q) by reflexivity.
  split; [reflexivity|]. split; [reflexivity|]. split; [reflexivity|].
  split; [exact Hs|].
  exact (oracle_verdict_is_disjunction scoringProvider fiberEntry MOCK_CONTRACTS
           contract001 contract001Fiber scoresHigh world0 eq_refl eq_refl
           (or_intror Hs)).
Defined.

(** C4, as stated, fails: the heuristic of the specification's words
    compares the texts as they are, the code compares them in lower case. *)
Lemma fallback_is_not_case_sensitive :
  ~ (forall (newLineItem : Entry) (firstMatch : VariableCostMatch),
        isDuplicate (keywordFallback newLineItem firstMatch) =
        lexicalVerdict (JS.orElse (details newLineItem) "") (vm_details firstMatch)).
Proof.
  intro H.
  specialize (H shoutedEntry (matchOf contract001 contract001Fiber)).
  vm_compute in H. discriminate.
Qed.

Lemma fallback_uses_lexical_overlap_witness :
  firstComparable shoutedEntry MOCK_CONTRACTS = Some (contract001, contract001Fiber) /\
  oracle unreachable
    (comparisonPrompt (details shoutedEntry)
       (vm_details (matchOf contract001 contract001Fiber))) = None /\
  isDuplicate
    (fst (detectVariableCostDuplicates unreachable shoutedEntry MOCK_CONTRACTS world0))
  = true.
Proof.
  split; [reflexivity|]. split; [reflexivity|].
  destruct (fallback_uses_lexical_overlap unreachable shoutedEntry MOCK_CONTRACTS
              contract001 contract001Fiber world0 eq_refl eq_refl)
    as (_ & Hv & _).
  apply Hv. reflexivity.
Defined.

(** C7, as stated, fails on the rationale: the text the code returns is not
    the one the claim quotes.  The contract looked at holds the proposed
    identifier, without details. *)
Lemma no_comparison_rationale_differs :
  ~ (forall provider newLineItem cs w,
        cs <> [] ->
        (forall c, In c cs -> hasLineItem (lineItemId newLineItem) c = true) ->
        (forall c l0, In c cs -> In l0 (lineItems c) ->
                      lineItemId l0 = lineItemId newLineItem ->
                      JS.truthy (details l0) = false) ->
        let r := fst (detectVariableCostDuplicates provider newLineItem cs w) in
        isDuplicate r = false /\ similarityScore r = 0%Q /\
        reasoning r = "no comparable details").
Proof.
  intro H.
  destruct (H unreachable fiberEntry [Samples.bareContract] world0) as (_ & _ & Hr).
  - discriminate.
  - intros c [<-|[]]. reflexivity.
  - intros c l0 [<-|[]] [<-|[]] _. reflexivity.
  - vm_compute in Hr. discriminate.
Qed.

Lemma one_representative_per_entry_witness :
  getLineItemDetails MOCK_LINE_ITEMS (lineItemId fiberEntry) = Some fiberInstallation /\
  li_type fiberInstallation = VariableCost /\
  firstComparable fiberEntry
    (filter (hasLineItem (lineItemId fiberEntry)) MOCK_CONTRACTS) =
    Some (contract001, contract001Fiber) /\
  (exists d,
      details contract001Fiber = Some d /\ d <> ""%string /\
      fst (detectVariableCostDuplicates scoringProvider fiberEntry
             (filter (hasLineItem (lineItemId fiberEntry)) MOCK_CONTRACTS) world0) =
        match oracle scoringProvider (comparisonPrompt (details fiberEntry) d) with
        | Some o =>
            {| isDuplicate := is_duplicate o || Qgtb (similarity_score o) (7 # 10);
               similarityScore := similarity_score o;
               reasoning := analysis_reasoning o;
               matchingContractId := Some (id contract001) |}
        | None => keywordFallback fiberEntry (matchOf contract001 contract001Fiber)
        end /\
      (forall p,
          In p (promptsOf (detectVariableCostDuplicates scoringProvider fiberEntry
                             (filter (hasLineItem (lineItemId fiberEntry)) MOCK_CONTRACTS))) ->
          p = comparisonPrompt (details fiberEntry) d)) /\
  List.length (entryFindings MOCK_LINE_ITEMS scoringProvider MOCK_CONTRACTS fiberEntry) <= 1 /\
  (forall f, In f (entryFindings MOCK_LINE_ITEMS scoringProvider MOCK_CONTRACTS fiberEntry) ->
             matchType f = Semantic).
Proof.
  split; [reflexivity|]. split; [reflexivity|]. split; [reflexivity|].
  destruct (one_representative_per_entry MOCK_LINE_ITEMS scoringProvider MOCK_CONTRACTS
              fiberEntry fiberInstallation world0 eq_refl eq_refl)
    as (_ & H2 & H3 & H4).
  split; [exact (H2 contract001 contract001Fiber eq_refl)|].
  split; [exact H3|exact H4].
Defined.

Lemma warning_level_by_count_witness :
  extractAwardData noParse (requestOf scenarioA) = Some scenarioA /\
  exists warningId summaryId,
    filter isDataEvent
      (body (fst (POST MOCK_CONTRACTS MOCK_LINE_ITEMS unreachable noParse noStream
                    (requestOf scenarioA) world0))) =
    [ DataDuplicateWarning warningId
        (findings MOCK_CONTRACTS MOCK_LINE_ITEMS unreachable scenarioA) true;
      DataDuplicateSummary summaryId 1 1 low ].
Proof.
  split; [reflexivity|].
  destruct (proj2 (warning_level_by_count MOCK_CONTRACTS MOCK_LINE_ITEMS unreachable
                     noParse noStream (requestOf scenarioA) scenarioA world0 eq_refl)
              (Nat.lt_0_succ 0))
    as (warningId & summaryId & level & Hf & H1 & _).
  exists warningId, summaryId. rewrite Hf, (H1 eq_refl). reflexivity.
Defined.

Lemma missing_details_still_compared_witness :
  getLineItemDetails MOCK_LINE_ITEMS (lineItemId bareEntry) = Some fiberInstallation /\
  li_type fiberInstallation = VariableCost /\
  JS.truthy (details bareEntry) = false /\
  (exists c l0, In c MOCK_CONTRACTS /\ In l0 (lineItems c) /\
                lineItemId l0 = lineItemId bareEntry /\
                JS.truthy (details l0) = true) /\
  promptsOf (checkLineItem MOCK_LINE_ITEMS scoringProvider MOCK_CONTRACTS [] bareEntry)
    <> [] /\
  (forall p,
      In p (promptsOf (checkLineItem MOCK_LINE_ITEMS scoringProvider MOCK_CONTRACTS []
                         bareEntry)) ->
      JS.includes p
        ("NEW LINE ITEM:" ++ nl ++ "Details: " ++ dq ++ "No details provided" ++ dq)
        = true) /\
  exists f,
    entryFindings MOCK_LINE_ITEMS scoringProvider MOCK_CONTRACTS bareEntry = [f] /\
    matchType f = Semantic /\ f_lineItemId f = "line-001"%string /\
    existingContractId f = "contract-001"%string /\
    f_similarityScore f = Some (8 # 10)%Q.
Proof.
  split; [reflexivity|]. split; [reflexivity|]. split; [reflexivity|].
  assert (Hex : exists c l0, In c MOCK_CONTRACTS /\ In l0 (lineItems c) /\
                             lineItemId l0 = lineItemId bareEntry /\
                             JS.truthy (details l0) = true).
  { exists contract001, contract001Fiber.
    split; [left; reflexivity|]. split; [left; reflexivity|].
    split; reflexivity. }
  split; [exact Hex|].
  destruct (missing_details_still_compared MOCK_LINE_ITEMS scoringProvider
              MOCK_CONTRACTS bareEntry fiberInstallation eq_refl eq_refl eq_refl Hex)
    as (c & l0 & d & F & Hd & H).
  cbv zeta in H. destruct H as (Hinc & Hne & Hall & Hfind).
  assert (F' : firstComparable bareEntry
                 (filter (hasLineItem (lineItemId bareEntry)) MOCK_CONTRACTS) =
               Some (contract001, contract001Fiber)) by reflexivity.
  rewrite F' in F. injection F as <- <-.
  simpl in Hd. injection Hd as <-.
  split; [exact Hne|]. split.
  - intros p Hp. rewrite (Hall p Hp). exact Hinc.
  - destruct (Hfind scoresHigh eq_refl eq_refl (or_intror eq_refl))
      as (f & Hf & Hk & Hl & Hc & Hs & _).
    + discriminate.
    + exists f. split; [exact Hf|]. split; [exact Hk|]. split; [exact Hl|].
      split; [exact Hc|exact Hs].
Defined.

(** ** The scenarios of the specification and the primitives *)

(** Scenario A: one exact-match finding, warning level low. *)
Example scenarioA_findings :
  findings MOCK_CONTRACTS MOCK_LINE_ITEMS unreachable scenarioA =
  [ exactFinding switchEntry networkSwitch contract001 ].
Proof. reflexivity. Qed.

(** Scenario B with the model scoring 0.8 and denying: one semantic finding
    that carries the score and the rationale. *)
Example scenarioB_findings :
  findings MOCK_CONTRACTS MOCK_LINE_ITEMS scoringProvider
    {| award_siteId := Some "site-001"; award_porId := Some "por-001";
       award_lineItems := [fiberEntry] |} =
  [ {| f_lineItemId := "line-001";
       f_lineItemName := "Fiber Optic Cable Installation";
       existingContractId := "contract-001";
       existingContractNumber := "PO-2025-001";
       matchType := Semantic;
       f_similarityScore := Some (8 # 10)%Q;
       aiReasoning := Some "Same cable run, different wording" |} ].
Proof. reflexivity. Qed.

(** Scenario C: nothing at site-003 / por-003. *)
Example scenarioC_events :
  body (fst (POST MOCK_CONTRACTS MOCK_LINE_ITEMS unreachable noParse noStream
               (requestOf {| award_siteId := Some "site-003";
                             award_porId := Some "por-003";
                             award_lineItems := [switchEntry] |}) world0)) =
  textEvents "id-0"
    (statusText {| award_siteId := Some "site-003"; award_porId := Some "por-003";
                   award_lineItems := [switchEntry] |}) ++
  textEvents "id-1" (successText 1).
Proof. reflexivity. Qed.

(** The cancelled contract-004 holds line-001 at site-001 / por-001 and is
    not found. *)
Example cancelled_contract_not_found :
  map id (candidatesFor MOCK_CONTRACTS
            {| award_siteId := Some "site-001"; award_porId := Some "por-001";
               award_lineItems := [fiberEntry] |}) = ["contract-001"].
Proof. reflexivity. Qed.

(** With the model out of reach the paraphrase is judged by the keywords. *)
Example fallback_on_paraphrase :
  let r := fst (detectVariableCostDuplicates unreachable fiberEntry MOCK_CONTRACTS world0) in
  isDuplicate r = true /\ similarityScore r = (6 # 6)%Q /\
  reasoning r = "Keyword-based similarity: 6/6 keywords match (AI analysis unavailable)".
Proof. repeat split. Qed.

Example split_ws_inner : JS.split_ws "fiber  optic cable" = ["fiber"; "optic"; "cable"].
Proof. reflexivity. Qed.

Example split_ws_ends : JS.split_ws " a " = [""; "a"; ""].
Proof. reflexivity. Qed.

Example split_ws_empty : JS.split_ws "" = [""].
Proof. reflexivity. Qed.

Example matchAfter_site :
  JS.matchAfter "Site:" "Site:   site-001 POR: por-001" = Some "site-001".
Proof. reflexivity. Qed.

Example toLowerCase_ex : JS.toLowerCase "Fiber CABLE" = "fiber cable".
Proof. reflexivity. Qed.

Example legacy_text_extraction :
  extractAwardData noParse
    {| messages := [ {| role := User;
                        parts := [TextPart "Site: site-001 "; TextPart "POR: por-001"] |} ];
       awardData := None |} =
  Some {| award_siteId := Some "site-001"; award_porId := Some "por-001";
          award_lineItems := [] |}.
Proof. reflexivity. Qed.


(** * Further properties *)

Import Facts.

(** ** The keyword fallback (chat.ts 196-215) *)

Lemma fallback_score_shape (e : Entry) (m : VariableCostMatch) :
  let ks := keywords (JS.toLowerCase (JS.orElse (details e) "")) in
  let hits :=
    List.length (filter (fun kw => JS.includes (JS.toLowerCase (vm_details m)) kw) ks) in
  similarityScore (keywordFallback e m) =
    (if 0 <? List.length ks then (Z.of_nat hits # Pos.of_nat (List.length ks))%Q else 0%Q) /\
  isDuplicate (keywordFallback e m) =
    Qgtb (similarityScore (keywordFallback e m)) (1 # 2) /\
  hits <= List.length ks.
Proof.
  intros ks hits. repeat split. apply filter_length_le.
Qed.

Lemma keywordFallback_score_bounds (e : Entry) (m : VariableCostMatch) :
  unitScore (similarityScore (keywordFallback e m)).
Proof.
  destruct (fallback_score_shape e m) as (Hs & _ & Hle). cbv zeta in *.
  rewrite Hs. clear Hs.
  destruct (0 <? List.length _) eqn:E.
  - apply Nat.ltb_lt in E. unfold unitScore, Qle. simpl Qnum. simpl Qden.
    rewrite (Zpos_of_nat _ E). split; lia.
  - split; [apply Qle_refl|discriminate].
Qed.

(** X2.  With the model out of reach, a proposed variable-cost entry without
    details (absent or empty) is never reported: the fallback finds no
    keyword, scores 0, and the entry adds no finding. *)
Theorem fallback_ignores_missing_details (lineItemDefs : list LineItem)
    (provider : string -> string -> option DuplicateAnalysis)
    (existing : list Contract) (e : Entry) (m : VariableCostMatch) :
  JS.truthy (details e) = false ->
  (forall prompt, oracle provider prompt = None) ->
  isDuplicate (keywordFallback e m) = false /\
  similarityScore (keywordFallback e m) = 0%Q /\
  (isVariableCost lineItemDefs e = true ->
   entryFindings lineItemDefs provider existing e = []).
Proof.
  intros Hd Ho.
  assert (Hk : forall m', isDuplicate (keywordFallback e m') = false /\
                          similarityScore (keywordFallback e m') = 0%Q).
  { intro m'. unfold keywordFallback. rewrite (toLowerCase_empty _ Hd). now split. }
  split; [apply Hk|]. split; [apply Hk|].
  unfold isVariableCost. intro Hv.
  destruct (getLineItemDetails lineItemDefs (lineItemId e)) as [li|] eqn:D;
    [|discriminate].
  destruct (li_type li) eqn:T; [discriminate|].
  rewrite (entryFindings_variable _ _ _ _ _ D T). cbv zeta.
  set (cwl := filter (hasLineItem (lineItemId e)) existing).
  unfold resultOf.
  destruct (firstComparable e cwl) as [[c l0]|] eqn:F.
  - rewrite (detect_comparable provider _ _ _ _ blank F). cbv zeta.
    rewrite Ho. simpl fst. now rewrite (proj1 (Hk _)).
  - now rewrite (detect_no_comparable provider _ _ blank F).
Qed.

(** X3.  The fallback is sure of a text it has already seen: when, in lower
    case, the new details occur in the existing details and hold at least
    one word longer than 3, every keyword is found again, the score is 1 and
    the verdict is positive. *)
Theorem fallback_recognises_contained_text (e : Entry) (m : VariableCostMatch) :
  let newText := JS.toLowerCase (JS.orElse (details e) "") in
  let existingText := JS.toLowerCase (vm_details m) in
  JS.includes existingText newText = true ->
  keywords newText <> [] ->
  isDuplicate (keywordFallback e m) = true /\
  (similarityScore (keywordFallback e m) == 1)%Q.
Proof.
  intros newText existingText Hin Hne.
  destruct (fallback_score_shape e m) as (Hs & Hv & _). cbv zeta in *.
  fold newText existingText in Hs.
  rewrite (filter_all (fun kw => JS.includes existingText kw) (keywords newText)) in Hs.
  - assert (Hpos : 0 < List.length (keywords newText)).
    { destruct (keywords newText); [now elim Hne|simpl; lia]. }
    rewrite (proj2 (Nat.ltb_lt _ _) Hpos) in Hs.
    assert (Hone : (similarityScore (keywordFallback e m) == 1)%Q).
    { rewrite Hs. unfold Qeq. simpl Qnum. simpl Qden.
      rewrite (Zpos_of_nat _ Hpos). lia. }
    split; [|exact Hone].
    rewrite Hv. apply Qgtb_true. rewrite Hone. reflexivity.
  - intros kw Hkw. apply (includes_trans _ newText); [exact Hin|].
    now apply keywords_in_text.
Qed.

(** The score of a comparison is always between 0 and 1. *)
Lemma detect_score_in_unit_interval
    (provider : string -> string -> option DuplicateAnalysis)
    (e : Entry) (cs : list Contract) :
  unitScore (similarityScore (resultOf (detectVariableCostDuplicates provider e cs))).
Proof.
  unfold resultOf.
  destruct (firstComparable e cs) as [[c l0]|] eqn:F.
  - rewrite (detect_comparable provider _ _ _ _ blank F). cbv zeta. simpl fst.
    destruct (oracle provider _) as [o|] eqn:O.
    + apply oracle_schema in O. destruct O as [_ O].
      unfold duplicateAnalysisSchema in O. apply andb_true_iff in O.
      destruct O as [O1 O2]. split; now apply Qle_bool_iff.
    + apply keywordFallback_score_bounds.
  - rewrite (detect_no_comparable provider _ _ blank F). simpl.
    split; [apply Qle_refl|discriminate].
Qed.

(** X1.  Whatever the model answers, and also when it fails, the score that
    [detectVariableCostDuplicates] returns lies between 0 and 1: an answer
    outside the schema is discarded, and the keyword fallback divides a count
    by a total that is at least as large. *)
Theorem comparison_score_in_unit_interval
    (provider : string -> string -> option DuplicateAnalysis)
    (e : Entry) (cs : list Contract) (w : World) :
  unitScore (similarityScore (fst (detectVariableCostDuplicates provider e cs w))) /\
  (forall m, unitScore (similarityScore (keywordFallback e m))).
Proof.
  split.
  - rewrite (quiet_detect provider e cs w). apply detect_score_in_unit_interval.
  - apply keywordFallback_score_bounds.
Qed.

(** ** The findings of an evaluation (chat.ts 325-406) *)

Section FindingShapes.

Variable contracts : list Contract.
Variable lineItemDefs : list LineItem.
Variable provider : string -> string -> option DuplicateAnalysis.

Lemma entryFindings_shape (existing : list Contract) (e : Entry) (f : Finding) :
  In f (entryFindings lineItemDefs provider existing e) ->
  exists li,
    getLineItemDetails lineItemDefs (lineItemId e) = Some li /\
    f_lineItemId f = lineItemId e /\ f_lineItemName f = li_name li /\
    match li_type li with
    | FixedCost =>
        matchType f = Exact /\ f_similarityScore f = None /\ aiReasoning f = None
    | VariableCost =>
        matchType f = Semantic /\
        exists s r, f_similarityScore f = Some s /\ aiReasoning f = Some r /\
                    unitScore s
    end.
Proof.
  intro Hf.
  destruct (getLineItemDetails lineItemDefs (lineItemId e)) as [li|] eqn:D.
  - exists li. split; [reflexivity|]. destruct (li_type li) eqn:T.
    + rewrite (entryFindings_fixed _ _ _ _ _ D T) in Hf.
      apply in_map_iff in Hf. destruct Hf as [c [<- _]]. simpl. auto.
    + rewrite (entryFindings_variable _ _ _ _ _ D T) in Hf. cbv zeta in Hf.
      destruct (isDuplicate _ && JS.truthy _); [|destruct Hf].
      destruct Hf as [<-|[]]. simpl. repeat split.
      eexists. eexists. repeat split; apply detect_score_in_unit_interval.
  - rewrite (entryFindings_undefined _ _ _ _ D) in Hf. destruct Hf.
Qed.

Lemma entryFindings_length (existing : list Contract) (e : Entry) :
  List.length (entryFindings lineItemDefs provider existing e) <=
  List.length (filter (hasLineItem (lineItemId e)) existing).
Proof.
  destruct (getLineItemDetails lineItemDefs (lineItemId e)) as [li|] eqn:D.
  - destruct (li_type li) eqn:T.
    + rewrite (entryFindings_fixed _ _ _ _ _ D T). now rewrite length_map.
    + rewrite (entryFindings_variable _ _ _ _ _ D T). cbv zeta.
      set (cwl := filter (hasLineItem (lineItemId e)) existing).
      destruct (detect_result_cases provider e cwl) as [[_ Hr]|(c & l0 & F & _)].
      * rewrite Hr. simpl. lia.
      * apply firstComparable_Some in F. destruct F as [Hc _].
        destruct (isDuplicate _ && JS.truthy _); simpl; [|lia].
        destruct cwl; [destruct Hc|simpl; lia].
  - rewrite (entryFindings_undefined _ _ _ _ D). simpl. lia.
Qed.

(** X4.  Every finding of an evaluation belongs to a proposed entry that has
    a definition, and carries its identifier and the definition's name.  It
    is an exact match without score or rationale when the definition is
    fixed-cost, and a semantic match with a rationale and a score between 0
    and 1 when it is variable-cost. *)
Theorem finding_kind_follows_cost_type (a : AwardData) (f : Finding) :
  In f (findings contracts lineItemDefs provider a) ->
  exists e li,
    In e (award_lineItems a) /\
    getLineItemDetails lineItemDefs (lineItemId e) = Some li /\
    f_lineItemId f = lineItemId e /\ f_lineItemName f = li_name li /\
    match li_type li with
    | FixedCost =>
        matchType f = Exact /\ f_similarityScore f = None /\ aiReasoning f = None
    | VariableCost =>
        matchType f = Semantic /\
        exists s r, f_similarityScore f = Some s /\ aiReasoning f = Some r /\
                    unitScore s
    end.
Proof.
  intro Hf. rewrite findings_by_candidates in Hf.
  apply in_flat_map in Hf. destruct Hf as [e [He Hf]].
  apply entryFindings_shape in Hf. destruct Hf as [li H].
  exists e, li. split; [exact He|exact H].
Qed.

(** X5.  The proposed entries are judged one by one and in order: the
    findings of a proposal whose entries are [l1 ++ l2] are the findings for
    [l1] followed by the findings for [l2], at the same site and project
    reference. *)
Theorem findings_of_concatenation (s p : option string) (l1 l2 : list Entry) :
  findings contracts lineItemDefs provider
    {| award_siteId := s; award_porId := p; award_lineItems := l1 ++ l2 |} =
  findings contracts lineItemDefs provider
    {| award_siteId := s; award_porId := p; award_lineItems := l1 |} ++
  findings contracts lineItemDefs provider
    {| award_siteId := s; award_porId := p; award_lineItems := l2 |}.
Proof.
  rewrite !findings_by_candidates. simpl. now rewrite flat_map_app.
Qed.

(** X6.  When the store holds no awarded contract at the proposal's site
    and project reference, the evaluation finds nothing, whatever is
    proposed, and the stream is the status message followed by the message
    that no duplicate was found. *)
Theorem no_candidate_no_findings
    (JSON_parse : string -> option AwardData)
    (streamText : list UIMessage -> list Event)
    (b : Body) (a : AwardData) (w : World) :
  (forall c, In c contracts -> candidate a c = false) ->
  extractAwardData JSON_parse b = Some a ->
  findings contracts lineItemDefs provider a = [] /\
  body (fst (POST contracts lineItemDefs provider JSON_parse streamText b w)) =
  textEvents (uuidAt w (drawn w)) (statusText a) ++
  textEvents (uuidAt w (S (drawn w))) (successText (List.length (award_lineItems a))).
Proof.
  intros Hnone E.
  assert (Hf : findings contracts lineItemDefs provider a = []).
  { rewrite findings_by_candidates.
    rewrite (proj2 (filter_nil_iff (candidate a) contracts) Hnone).
    induction (award_lineItems a) as [|e l IH]; simpl; [reflexivity|].
    rewrite IH, app_nil_r.
    pose proof (entryFindings_length [] e) as L. simpl in L.
    destruct (entryFindings lineItemDefs provider [] e); [reflexivity|simpl in L; lia]. }
  split; [exact Hf|].
  rewrite (POST_award contracts lineItemDefs provider JSON_parse streamText b a w E).
  now rewrite Hf.
Qed.

(** X7.  An evaluation reports at most one finding per proposed entry and
    awarded contract at the proposal's site and project reference. *)
Theorem findings_count_bound (a : AwardData) :
  List.length (findings contracts lineItemDefs provider a) <=
  List.length (award_lineItems a) * List.length (filter (candidate a) contracts).
Proof.
  rewrite findings_by_candidates.
  induction (award_lineItems a) as [|e l IH]; simpl; [lia|].
  rewrite length_app.
  pose proof (entryFindings_length (filter (candidate a) contracts) e) as L.
  pose proof (filter_length_le (hasLineItem (lineItemId e))
                (filter (candidate a) contracts)) as L'.
  lia.
Qed.

Lemma checkLineItem_prompts (existing : list Contract) (dups : list Finding)
    (e : Entry) :
  promptsOf (checkLineItem lineItemDefs provider existing dups e) =
  if isVariableCost lineItemDefs e
  then promptsOf (detectVariableCostDuplicates provider e
                    (filter (hasLineItem (lineItemId e)) existing))
  else [].
Proof.
  unfold isVariableCost, checkLineItem.
  destruct (getLineItemDetails lineItemDefs (lineItemId e)) as [li|];
    [|reflexivity].
  fold (hasLineItem (lineItemId e)).
  set (cwl := filter (hasLineItem (lineItemId e)) existing).
  destruct cwl as [|c cs] eqn:F.
  - change (0 <? List.length (@nil Contract)) with false. cbv iota.
    destruct (li_type li); [reflexivity|].
    unfold promptsOf at 2.
    now rewrite (detect_no_comparable provider e [] blank eq_refl).
  - change (0 <? List.length (c :: cs)) with true. cbv iota.
    destruct (li_type li).
    + rewrite (promptsOf_forOf _ (fun _ => [])).
      * clear F. induction (c :: cs) as [|x xs IHxs]; simpl; auto.
      * intros; apply quiet_ret.
      * reflexivity.
    + rewrite promptsOf_bind.
      * destruct (isDuplicate _ && JS.truthy _); unfold promptsOf at 2; simpl;
          now rewrite app_nil_r.
      * apply quiet_detect.
      * intro r. destruct (isDuplicate r && JS.truthy (matchingContractId r));
          apply quiet_ret.
Qed.

Lemma detect_prompts_length (e : Entry) (cs : list Contract) :
  List.length (promptsOf (detectVariableCostDuplicates provider e cs)) <= 1.
Proof.
  unfold promptsOf.
  destruct (firstComparable e cs) as [[c l0]|] eqn:F.
  - rewrite (detect_comparable provider _ _ _ _ blank F). simpl. lia.
  - rewrite (detect_no_comparable provider _ _ blank F). simpl. lia.
Qed.

(** X8.  In the turn of a proposed entry [generateObject] is called at
    most once, and not at all when the entry's definition is fixed-cost or
    missing; the calls of an evaluation are those of its turns, in the order
    of the proposal, after whatever was sent before. *)
Theorem model_calls_bound (a : AwardData) (w : World) :
  let calls := fun e =>
    promptsOf (checkLineItem lineItemDefs provider (candidatesFor contracts a) [] e) in
  (forall e duplicates w',
      prompts (snd (checkLineItem lineItemDefs provider (candidatesFor contracts a)
                      duplicates e w')) =
      prompts w' ++ calls e) /\
  (forall e, List.length (calls e) <= 1) /\
  (forall e, isVariableCost lineItemDefs e = false -> calls e = []) /\
  prompts (snd (findDuplicates contracts lineItemDefs provider a w)) =
  prompts w ++ flat_map calls (award_lineItems a).
Proof.
  intro calls. split; [|split; [|split]].
  - intros e duplicates w'.
    rewrite (quiet_checkLineItem lineItemDefs provider _ duplicates e w').
    simpl. subst calls. cbv beta. now rewrite !checkLineItem_prompts.
  - intro e. subst calls. cbv beta. rewrite checkLineItem_prompts.
    pose proof (detect_prompts_length e
                  (filter (hasLineItem (lineItemId e)) (candidatesFor contracts a))) as L.
    destruct (isVariableCost lineItemDefs e); simpl; lia.
  - intros e H. subst calls. cbv beta. now rewrite checkLineItem_prompts, H.
  - rewrite findDuplicates_run. simpl. f_equal.
    unfold findDuplicates. fold (candidatesFor contracts a).
    apply promptsOf_forOf.
    + intros; apply quiet_checkLineItem.
    + intros acc e. subst calls. cbv beta. now rewrite !checkLineItem_prompts.
Qed.

End FindingShapes.

(** ** Where the award comes from (chat.ts 218-262, root.tsx 18-25) *)

Lemma last_map_Some {A} (ms : list A) (m : A) :
  last (map Some (ms ++ [m])) None = Some m.
Proof. rewrite map_app. simpl. apply last_last. Qed.

Lemma substring_all (s : string) : substring 0 (String.length s) s = s.
Proof. induction s as [|c s IH]; simpl; [reflexivity|now rewrite IH]. Qed.

Lemma dropPrefix_app (p s : string) : JS.dropPrefix p (p ++ s) = s.
Proof.
  unfold JS.dropPrefix. rewrite str_length_app.
  replace (String.length p + String.length s - String.length p)
    with (String.length s) by lia.
  induction p as [|c p IH]; simpl; [apply substring_all|exact IH].
Qed.

Lemma takeNonSpaces_spaceFree (s : string) : spaceFree (JS.takeNonSpaces s) = true.
Proof.
  unfold spaceFree. induction s as [|c s IH]; simpl; [reflexivity|].
  destruct (JS.isSpace c) eqn:E; simpl; [reflexivity|]. now rewrite E, IH.
Qed.

Lemma matchAfter_capture (key s r : string) :
  JS.matchAfter key s = Some r -> r <> ""%string /\ spaceFree r = true.
Proof.
  assert (Hhere : forall t run,
             (if JS.startsWith t key
              then if String.eqb (JS.takeNonSpaces (JS.skipSpaces (JS.dropPrefix key t))) ""
                   then None
                   else Some (JS.takeNonSpaces (JS.skipSpaces (JS.dropPrefix key t)))
              else None) = Some run ->
             run <> ""%string /\ spaceFree run = true).
  { intros t run. destruct (JS.startsWith t key); [|discriminate].
    destruct (String.eqb _ "") eqn:E; [discriminate|].
    intro H. inversion H; subst. split.
    - now apply String.eqb_neq.
    - apply takeNonSpaces_spaceFree. }
  induction s as [|c s IH]; cbn [JS.matchAfter]; cbv zeta.
  - destruct (if JS.startsWith "" key then _ else None) as [run|] eqn:H;
      [|discriminate].
    intro R. inversion R; subst. now apply (Hhere ""%string).
  - destruct (if JS.startsWith (String c s) key then _ else None) as [run|] eqn:H.
    + intro R. inversion R; subst. now apply (Hhere (String c s)).
    + exact IH.
Qed.

Section AwardSources.

Variable contracts : list Contract.
Variable lineItemDefs : list LineItem.
Variable provider : string -> string -> option DuplicateAnalysis.
Variable JSON_parse : string -> option AwardData.
Variable streamText : list UIMessage -> list Event.

(** X9.  Only the last message is read for an award, and only when the user
    sent it: when the body carries no award and the last message comes from
    someone else, or there is no message, the handler relays the
    conversational stream and nothing else; no identifier is drawn and the
    model is not asked to compare anything. *)
Theorem other_last_message_means_conversation (ms : list UIMessage) (w : World) :
  match last (map Some ms) None with
  | Some m => role m <> User
  | None => True
  end ->
  let b := {| messages := ms; awardData := None |} in
  let r := POST contracts lineItemDefs provider JSON_parse streamText b w in
  fst r = {| statusCode := 200; body := streamText ms |} /\
  drawn (snd r) = drawn w /\ prompts (snd r) = prompts w.
Proof.
  intros H b r. subst r b. unfold POST, extractAwardData. simpl awardData.
  simpl messages. destruct (last (map Some ms) None) as [m|].
  - destruct (role m); [now elim H| |]; repeat split.
  - repeat split.
Qed.

(** X10.  What the form submits is what the handler evaluates: when
    [JSON.parse] undoes [JSON.stringify] on the award, the message that
    [handleAwardSubmit] sends, after any earlier conversation, makes the
    handler extract that award and answer as if the award had been in the
    body. *)
Theorem submitted_award_is_evaluated (JSON_stringify : AwardData -> string)
    (a : AwardData) (ms : list UIMessage) (w : World) :
  JSON_parse (JSON_stringify a) = Some a ->
  let b := Client.sendMessage (Client.handleAwardSubmit JSON_stringify a) ms in
  extractAwardData JSON_parse b = Some a /\
  fst (POST contracts lineItemDefs provider JSON_parse streamText b w) =
  fst (POST contracts lineItemDefs provider JSON_parse streamText
         {| messages := []; awardData := Some a |} w).
Proof.
  intros Hrt b.
  assert (E : extractAwardData JSON_parse b = Some a).
  { subst b. unfold Client.sendMessage.
    set (t := Client.handleAwardSubmit JSON_stringify a).
    unfold extractAwardData. cbn [awardData messages].
    rewrite last_map_Some. cbn [role]. unfold messageText.
    cbn [parts map String.concat]. subst t. unfold Client.handleAwardSubmit.
    change "CHECK_DUPLICATES_AWARD_DATA:"%string with awardPrefix.
    rewrite startsWith_app, dropPrefix_app, Hrt. reflexivity. }
  split; [exact E|].
  rewrite (POST_award contracts lineItemDefs provider JSON_parse streamText b a w E).
  now rewrite (POST_award contracts lineItemDefs provider JSON_parse streamText
                 {| messages := []; awardData := Some a |} a w eq_refl).
Qed.

(** X11.  An award that the handler extracts is the one in the body, or a
    result of [JSON.parse], or comes from the `Site:' / `POR:' text of the
    last message; in that last case both identifiers are present, not empty
    and free of white space, there is no line item, and so no finding. *)
Theorem award_sources (b : Body) (a : AwardData) :
  extractAwardData JSON_parse b = Some a ->
  awardData b = Some a \/
  (awardData b = None /\ exists text, JSON_parse text = Some a) \/
  (awardData b = None /\ award_lineItems a = [] /\
   findings contracts lineItemDefs provider a = [] /\
   exists s p, award_siteId a = Some s /\ award_porId a = Some p /\
               s <> ""%string /\ p <> ""%string /\
               spaceFree s = true /\ spaceFree p = true).
Proof.
  unfold extractAwardData.
  destruct (awardData b) as [a0|]; [intro H; now left|].
  destruct (last (map Some (messages b)) None) as [m|]; [|discriminate].
  destruct (role m); try discriminate.
  set (text := messageText m).
  destruct (if JS.startsWith text awardPrefix
            then JSON_parse (JS.dropPrefix awardPrefix text) else None)
    as [a1|] eqn:P.
  - intro H. inversion H; subst a1. right; left. split; [reflexivity|].
    revert P. destruct (JS.startsWith text awardPrefix); [|discriminate].
    intro P. now exists (JS.dropPrefix awardPrefix text).
  - destruct (JS.includes text "Site:" && JS.includes text "POR:"); [|discriminate].
    destruct (JS.matchAfter "Site:" text) as [s|] eqn:Ms; [|discriminate].
    destruct (JS.matchAfter "POR:" text) as [p|] eqn:Mp; [|discriminate].
    intro H. inversion H; subst a. right; right.
    apply matchAfter_capture in Ms, Mp.
    split; [reflexivity|]. split; [reflexivity|].
    split; [now rewrite findings_flat_map|].
    exists s, p. tauto.
Qed.

End AwardSources.

(** ** The store and the tools (mock-db.ts 1409-1450, chat.ts 48-100) *)

Import Tools.

Lemma find_by_key_unique {A} (key : A -> string) (l : list A) (x : A) :
  NoDup (map key l) -> In x l ->
  find (fun y => String.eqb (key y) (key x)) l = Some x.
Proof.
  induction l as [|y l IH]; intros Hnd Hin; [destruct Hin|].
  simpl in Hnd. inversion Hnd as [|k ks Hk Hnd']; subst. simpl.
  destruct Hin as [->|Hin].
  - now rewrite String.eqb_refl.
  - destruct (String.eqb (key y) (key x)) eqn:E.
    + apply String.eqb_eq in E. exfalso. apply Hk. rewrite E. now apply in_map.
    + now apply IH.
Qed.

Lemma find_by_key_none {A} (key : A -> string) (l : list A) (k : string) :
  find (fun y => String.eqb (key y) k) l = None <-> ~ In k (map key l).
Proof.
  induction l as [|y l IH]; simpl.
  - split; [intros _ []|reflexivity].
  - destruct (String.eqb (key y) k) eqn:E.
    + apply String.eqb_eq in E. split; [discriminate|]. intro H. elim H. now left.
    + apply String.eqb_neq in E. rewrite IH. split.
      * intros H [H'|H']; [now apply E|now apply H].
      * intros H H'. apply H. now right.
Qed.

Lemma find_by_key_some {A} (key : A -> string) (l : list A) (k : string) (x : A) :
  find (fun y => String.eqb (key y) k) l = Some x -> In x l /\ key x = k.
Proof.
  intro H. apply find_some in H. destruct H as [H1 H2].
  split; [exact H1|now apply String.eqb_eq].
Qed.

(** X12.  In any store, looking a contract or a line item up by
    identifier returns a record of the store with that identifier, and
    nothing exactly when no record has it; when the identifiers of the
    contracts (of the line items) are all different, looking up the
    identifier of a stored contract (line item) returns that very record. *)
Theorem lookup_by_id (contracts : list Contract) (lineItemDefs : list LineItem) :
  (forall k c, getContractDetails contracts k = Some c -> In c contracts /\ id c = k) /\
  (forall k li, getLineItemDetails lineItemDefs k = Some li ->
                In li lineItemDefs /\ li_id li = k) /\
  (forall k, getContractDetails contracts k = None <-> ~ In k (map id contracts)) /\
  (forall k, getLineItemDetails lineItemDefs k = None <->
             ~ In k (map li_id lineItemDefs)) /\
  (NoDup (map id contracts) ->
   forall c, In c contracts -> getContractDetails contracts (id c) = Some c) /\
  (NoDup (map li_id lineItemDefs) ->
   forall li, In li lineItemDefs ->
              getLineItemDetails lineItemDefs (li_id li) = Some li).
Proof.
  split; [|split; [|split; [|split; [|split]]]].
  - intros k c. apply (find_by_key_some id contracts k c).
  - intros k li. apply (find_by_key_some li_id lineItemDefs k li).
  - intro k. apply (find_by_key_none id).
  - intro k. apply (find_by_key_none li_id).
  - intros Hc c Hin. now apply (find_by_key_unique id).
  - intros Hl li Hin. now apply (find_by_key_unique li_id).
Qed.

(** X13.  The search finds nothing for an empty list of identifiers, never
    returns a contract without line items, and finds for a longer list of
    identifiers at least what it finds for a shorter one. *)
Theorem search_edge_cases (contracts : list Contract) (s p : option string) :
  searchExistingContracts contracts s p [] = [] /\
  (forall ids c, In c (searchExistingContracts contracts s p ids) ->
                 lineItems c <> []) /\
  (forall ids ids' c,
      incl ids ids' ->
      In c (searchExistingContracts contracts s p ids) ->
      In c (searchExistingContracts contracts s p ids')).
Proof.
  pose (a := {| award_siteId := s; award_porId := p; award_lineItems := [] |}).
  split; [|split].
  - unfold searchExistingContracts. apply filter_nil_iff. intros c _.
    assert (E : existsb (fun li => existsb (String.eqb (lineItemId li)) [])
                  (lineItems c) = false).
    { induction (lineItems c) as [|li l IH]; simpl; [reflexivity|exact IH]. }
    rewrite E. apply andb_false_r.
  - intros ids c H. apply (search_In contracts a ids c) in H.
    destruct H as (_ & _ & _ & _ & li & Hli & _).
    intro E. rewrite E in Hli. destruct Hli.
  - intros ids ids' c Hincl H.
    apply (search_In contracts a ids c) in H.
    apply (search_In contracts a ids' c).
    destruct H as (H1 & H2 & H3 & H4 & li & Hli & Hid).
    repeat split; auto. exists li. split; [exact Hli|now apply Hincl].
Qed.

Lemma existsb_exchange {A B} (r : A -> B -> bool) (xs : list A) (ys : list B) :
  existsb (fun x => existsb (fun y => r x y) ys) xs =
  existsb (fun y => existsb (fun x => r x y) xs) ys.
Proof.
  apply eq_true_iff_eq. rewrite !existsb_exists. split.
  - intros (x & Hx & H). apply existsb_exists in H. destruct H as (y & Hy & H).
    exists y. split; [exact Hy|]. apply existsb_exists. now exists x.
  - intros (y & Hy & H). apply existsb_exists in H. destruct H as (x & Hx & H).
    exists x. split; [exact Hx|]. apply existsb_exists. now exists y.
Qed.

(** X14.  The contract-search tool gives the summaries of the contracts of
    the store that are awarded, have the given site and project reference
    and hold one of the given identifiers: one summary for each such
    contract, in the order of the store, and nothing else; a pending or
    cancelled contract is never listed. *)
Theorem searchContractsTool_lists_awarded (contracts : list Contract)
    (site por : string) (ids : list string) :
  searchContractsTool contracts site por ids =
    map summaryOf (filter (askedFor site por ids) contracts) /\
  List.length (searchContractsTool contracts site por ids) =
    List.length (filter (askedFor site por ids) contracts) /\
  (forall c, askedFor site por ids c = true <->
             status c = Awarded /\ siteId c = site /\ porId c = por /\
             exists li, In li (lineItems c) /\ In (lineItemId li) ids).
Proof.
  assert (E : searchContractsTool contracts site por ids =
              map summaryOf (filter (askedFor site por ids) contracts)).
  { unfold searchContractsTool, searchExistingContracts. f_equal.
    apply filter_ext. intro c. unfold askedFor. simpl JS.strictEqOpt.
    f_equal. apply existsb_exchange. }
  split; [exact E|]. split; [now rewrite E, length_map|].
  intro c. unfold askedFor.
  rewrite !andb_true_iff, Status_eqb_eq, !String.eqb_eq, existsb_exists.
  split.
  - intros (((Hs & Hsite) & Hpor) & k & Hk & H).
    apply existsb_exists in H. destruct H as (li & Hli & H).
    apply String.eqb_eq in H. repeat split; auto.
    exists li. split; [exact Hli|now rewrite H].
  - intros (Hs & Hsite & Hpor & li & Hli & Hid).
    repeat split; auto. exists (lineItemId li). split; [exact Hid|].
    apply existsb_exists. exists li. split; [exact Hli|apply String.eqb_refl].
Qed.

(** X15.  The two lookup tools never fail: for an identifier of the store
    they answer with a record that has it, and for any other identifier with
    the error object, whose text is `Line item not found' or `Contract not
    found'. *)
Theorem lookup_tools_answer (contracts : list Contract)
    (lineItemDefs : list LineItem) (k : string) :
  (In k (map li_id lineItemDefs) ->
   exists li, getLineItemTool lineItemDefs k = Found li /\
              In li lineItemDefs /\ li_id li = k) /\
  (~ In k (map li_id lineItemDefs) ->
   getLineItemTool lineItemDefs k = ToolError "Line item not found") /\
  (In k (map id contracts) ->
   exists c, getContractTool contracts k = Found c /\ In c contracts /\ id c = k) /\
  (~ In k (map id contracts) ->
   getContractTool contracts k = ToolError "Contract not found").
Proof.
  unfold getLineItemTool, getContractTool. repeat split.
  - intro H. destruct (getLineItemDetails lineItemDefs k) as [li|] eqn:E.
    + exists li. split; [reflexivity|].
      now apply (find_by_key_some li_id lineItemDefs k li).
    + apply (find_by_key_none li_id) in E. now elim E.
  - intro H. apply (find_by_key_none li_id) in H.
    unfold getLineItemDetails. now rewrite H.
  - intro H. destruct (getContractDetails contracts k) as [c|] eqn:E.
    + exists c. split; [reflexivity|].
      now apply (find_by_key_some id contracts k c).
    + apply (find_by_key_none id) in E. now elim E.
  - intro H. apply (find_by_key_none id) in H.
    unfold getContractDetails. now rewrite H.
Qed.

(** ** The award form (award-form.tsx 33-74) *)

Import AwardForm.

Lemma filterIndexFrom_drop {A} (index : nat) (l : list A) :
  forall base,
    filterIndexFrom (fun _ i => negb (i =? index)) base l =
    if index <? base then l
    else firstn (index - base) l ++ skipn (S (index - base)) l.
Proof.
  induction l as [|x l IH]; intro base; simpl.
  - destruct (index <? base); [reflexivity|].
    now rewrite firstn_nil.
  - rewrite IH. destruct (base =? index) eqn:E; simpl.
    + apply Nat.eqb_eq in E. subst base.
      rewrite (proj2 (Nat.ltb_lt index (S index))) by lia.
      rewrite (proj2 (Nat.ltb_ge index index)) by lia.
      now rewrite Nat.sub_diag.
    + apply Nat.eqb_neq in E. destruct (index <? base) eqn:L.
      * apply Nat.ltb_lt in L.
        now rewrite (proj2 (Nat.ltb_lt index (S base))) by lia.
      * apply Nat.ltb_ge in L.
        rewrite (proj2 (Nat.ltb_ge index (S base))) by lia.
        replace (index - base) with (S (index - S base)) by lia.
        reflexivity.
Qed.

Lemma removeLineItem_split (index : nat) (l : list Entry) :
  removeLineItem index l = firstn index l ++ skipn (S index) l.
Proof.
  unfold removeLineItem. rewrite filterIndexFrom_drop. simpl.
  now rewrite Nat.sub_0_r.
Qed.

Lemma assignAt_length {A} (i : nat) (v : A) (l : list A) :
  List.length (assignAt i v l) = List.length l.
Proof.
  revert i. induction l as [|x l IH]; intros [|i]; simpl; auto.
Qed.

Lemma assignAt_same {A} (i : nat) (v : A) (l : list A) :
  i < List.length l -> nth_error (assignAt i v l) i = Some v.
Proof.
  revert i. induction l as [|x l IH]; intros [|i] H; simpl in *; try lia; auto.
  apply IH. lia.
Qed.

Lemma assignAt_other {A} (i j : nat) (v : A) (l : list A) :
  i <> j -> nth_error (assignAt i v l) j = nth_error l j.
Proof.
  revert i j. induction l as [|x l IH]; intros [|i] [|j] H; simpl; auto.
  now elim H.
Qed.

(** X16.  Removing the entry at an index of the form keeps the entries
    before and after it, in order; the list gets one shorter, and an index
    outside the list removes nothing. *)
Theorem removeLineItem_removes_one (index : nat) (l : list Entry) :
  removeLineItem index l = firstn index l ++ skipn (S index) l /\
  (index < List.length l ->
   S (List.length (removeLineItem index l)) = List.length l) /\
  (List.length l <= index -> removeLineItem index l = l).
Proof.
  rewrite removeLineItem_split. split; [reflexivity|]. split; intro H.
  - rewrite length_app, length_firstn, length_skipn. lia.
  - rewrite firstn_all2 by lia. rewrite skipn_all2 by lia. apply app_nil_r.
Qed.

(** X17.  Updating the entry at an index of the form changes that entry
    only: the list keeps its length and every other entry; the entry takes
    the fields that the update carries and keeps the others; and an index
    outside the list changes nothing. *)
Theorem updateLineItem_changes_one (index : nat) (u : Updates) (l : list Entry) :
  List.length (updateLineItem index u l) = List.length l /\
  (forall j, j <> index -> nth_error (updateLineItem index u l) j = nth_error l j) /\
  (List.length l <= index -> updateLineItem index u l = l) /\
  (forall current,
      nth_error l index = Some current ->
      nth_error (updateLineItem index u l) index =
      Some {| lineItemId :=
                match u_lineItemId u with Some x => x | None => lineItemId current end;
              quantity :=
                match u_quantity u with Some q => Some q | None => quantity current end;
              details :=
                match u_details u with Some d => Some d | None => details current end |}).
Proof.
  unfold updateLineItem. cbv zeta.
  destruct (nth_error l index) as [c|] eqn:E.
  - assert (Hlt : index < List.length l) by (apply nth_error_Some; congruence).
    repeat split.
    + apply assignAt_length.
    + intros j Hj. apply assignAt_other. auto.
    + intro H. lia.
    + intros current Hc. inversion Hc; subst. now apply assignAt_same.
  - repeat split; auto. intros current Hc. discriminate.
Qed.

(** X18.  An update of the form never takes a field away: an entry that has
    a quantity, or details, still has one after any update (an update whose
    field is [undefined] keeps the old value), and an update that carries no
    field leaves the list as it is. *)
Theorem updateLineItem_never_clears (index : nat) (u : Updates) (l : list Entry)
    (j : nat) (after : Entry) :
  nth_error (updateLineItem index u l) j = Some after ->
  (exists before,
      nth_error l j = Some before /\
      (quantity before <> None -> quantity after <> None) /\
      (details before <> None -> details after <> None)) /\
  updateLineItem index
    {| u_lineItemId := None; u_quantity := None; u_details := None |} l = l.
Proof.
  intro H. split.
  - unfold updateLineItem in H. cbv zeta in H.
    destruct (nth_error l index) as [c|] eqn:E.
    + assert (Hlt : index < List.length l) by (apply nth_error_Some; congruence).
      destruct (Nat.eq_dec index j) as [<-|N].
      * rewrite assignAt_same in H by exact Hlt. injection H as <-.
        exists c. split; [exact E|]. simpl.
        destruct (u_quantity u), (u_details u); split; auto; discriminate.
      * rewrite assignAt_other in H by exact N. exists after. tauto.
    + exists after. tauto.
  - unfold updateLineItem. cbv zeta.
    destruct (nth_error l index) as [c|] eqn:E; [|reflexivity].
    clear H. revert index E. induction l as [|x l IH]; intros [|i] E;
      simpl in *; try discriminate.
    + inversion E; subst. now destruct c.
    + now rewrite (IH i E).
Qed.

(** X19.  Adding a line item appends one entry, for the first line item of
    the catalogue and with neither quantity nor details, and removing the
    last index afterwards gives the list back; with an empty catalogue, or a
    first line item whose identifier is empty, nothing is added. *)
Theorem addLineItem_appends_first (catalogue : list LineItem) (l : list Entry) :
  match catalogue with
  | first :: _ =>
      if String.eqb (li_id first) "" then addLineItem catalogue l = l
      else
        addLineItem catalogue l =
          l ++ [ {| lineItemId := li_id first; quantity := None; details := None |} ] /\
        removeLineItem (List.length l) (addLineItem catalogue l) = l
  | [] => addLineItem catalogue l = l
  end.
Proof.
  destruct catalogue as [|first rest]; [reflexivity|].
  unfold addLineItem. cbn [nth_error JS.truthy].
  destruct (String.eqb (li_id first) ""); cbn [negb]; [reflexivity|].
  split; [reflexivity|].
  rewrite removeLineItem_split.
  rewrite firstn_app, Nat.sub_diag, firstn_all. simpl firstn. rewrite app_nil_r.
  rewrite skipn_all2; [apply app_nil_r|]. rewrite length_app. simpl. lia.
Qed.

(** ** The names shown for an award (components.tsx 54-84) *)

(** X20.  The names that the message component shows for the site, the
    project reference and the line items of an award are those of the seeded
    store, and an identifier the store does not know is shown as it is. *)
Theorem display_names_agree_with_store (k : string) :
  Client.siteName k =
    match getSiteDetails MOCK_SITES k with
    | Some s => site_name s
    | None => k
    end /\
  Client.porName k =
    match getPORDetails MOCK_PORS k with
    | Some p => por_name p
    | None => k
    end /\
  Client.lineItemName k =
    match getLineItemDetails MOCK_LINE_ITEMS k with
    | Some li => li_name li
    | None => k
    end.
Proof.
  unfold Client.siteName, Client.porName, Client.lineItemName,
    getSiteDetails, getPORDetails, getLineItemDetails,
    MOCK_SITES, MOCK_PORS, MOCK_LINE_ITEMS.
  cbn [find site_id site_name por_id por_name li_id li_name].
  repeat match goal with
         | |- context [String.eqb ?lit k] => rewrite (String.eqb_sym lit k)
         end.
  repeat split;
    repeat match goal with
           | |- context [String.eqb k ?lit] => destruct (String.eqb k lit)
           end; reflexivity.
Qed.


(** ** The scorers of the release-notes evaluation (question-answerer.eval.ts) *)

Import QuestionAnswererEval.

Lemma closesOnLine_iff (s : string) :
  closesOnLine s = true <->
  exists u post, s = (u ++ ")" ++ post)%string /\ lineFree u = true.
Proof.
  split.
  - induction s as [|c s IH]; simpl; [discriminate|].
    intro H. apply orb_true_iff in H. destruct H as [H|H].
    + apply Ascii.eqb_eq in H. subst c. now exists ""%string, s.
    + apply andb_true_iff in H. destruct H as [Hc H].
      destruct (IH H) as (u & post & -> & Hu).
      exists (String c u), post. split; [reflexivity|].
      unfold lineFree in *. simpl. now rewrite Hc, Hu.
  - intros (u & post & -> & Hu). revert Hu. unfold lineFree.
    induction u as [|c u IH]; intro Hu; simpl in *.
    + reflexivity.
    + apply andb_true_iff in Hu. destruct Hu as [Hc Hu].
      rewrite Hc, (IH Hu). apply orb_true_r.
Qed.

Lemma linkBodyOnLine_iff (s : string) :
  linkBodyOnLine s = true <->
  exists t u post,
    s = (t ++ "](" ++ u ++ ")" ++ post)%string /\
    lineFree t = true /\ lineFree u = true.
Proof.
  split.
  - induction s as [|c s IH]; [discriminate|].
    cbn [linkBodyOnLine]. intro H. apply orb_true_iff in H. destruct H as [H|H].
    + destruct s as [|c' s'']; [discriminate|].
      apply andb_true_iff in H. destruct H as [H Hcl].
      apply andb_true_iff in H. destruct H as [H1 H2].
      apply Ascii.eqb_eq in H1, H2. subst c c'.
      apply closesOnLine_iff in Hcl. destruct Hcl as (u & post & -> & Hu).
      now exists ""%string, u, post.
    + apply andb_true_iff in H. destruct H as [Hc H].
      destruct (IH H) as (t & u & post & -> & Ht & Hu).
      exists (String c t), u, post. split; [reflexivity|].
      split; [|exact Hu]. unfold lineFree in *. simpl. now rewrite Hc, Ht.
  - intros (t & u & post & -> & Ht & Hu).
    assert (Hcl : closesOnLine (u ++ ")" ++ post) = true)
      by (apply closesOnLine_iff; now exists u, post).
    revert Ht. unfold lineFree at 1.
    induction t as [|c t IH]; intro Ht; simpl in *.
    + now rewrite Hcl.
    + apply andb_true_iff in Ht. destruct Ht as [Hc Ht].
      rewrite Hc, (IH Ht). apply orb_true_r.
Qed.

(** X21.  The markdown-link scorer gives 1 exactly to an output that holds
    an opening bracket, later on the same line `](', and later on that line
    a closing parenthesis; otherwise it gives 0. *)
Theorem markdown_link_scorer_spec (output : string) :
  (includesMarkdownLinks output = 1 <->
   exists pre t u post,
     output = (pre ++ "[" ++ t ++ "](" ++ u ++ ")" ++ post)%string /\
     lineFree t = true /\ lineFree u = true) /\
  (includesMarkdownLinks output = 0 \/ includesMarkdownLinks output = 1).
Proof.
  unfold includesMarkdownLinks. split.
  - assert (H : markdownLinksFound output = true <->
                exists pre t u post,
                  output = (pre ++ "[" ++ t ++ "](" ++ u ++ ")" ++ post)%string /\
                  lineFree t = true /\ lineFree u = true).
    { split.
      - induction output as [|c s IH]; simpl; [discriminate|].
        intro H. apply orb_true_iff in H. destruct H as [H|H].
        + apply andb_true_iff in H. destruct H as [Hc H].
          apply Ascii.eqb_eq in Hc. subst c.
          apply linkBodyOnLine_iff in H. destruct H as (t & u & post & -> & Ht & Hu).
          now exists ""%string, t, u, post.
        + destruct (IH H) as (pre & t & u & post & -> & Ht & Hu).
          now exists (String c pre), t, u, post.
      - intros (pre & t & u & post & -> & Ht & Hu).
        assert (Hb : linkBodyOnLine (t ++ "](" ++ u ++ ")" ++ post) = true)
          by (apply linkBodyOnLine_iff; now exists t, u, post).
        induction pre as [|c pre IH]; simpl in *.
        + now rewrite Hb.
        + rewrite IH. apply orb_true_r. }
    rewrite <- H. destruct (markdownLinksFound output); split; congruence.
  - destruct (markdownLinksFound output); auto.
Qed.

Lemma versionAt_length (s m : string) :
  versionAt s = Some m -> 14 <= String.length m.
Proof.
  unfold versionAt. destruct (JS.startsWith s "TypeScript "); [|discriminate].
  cbv zeta. destruct (dropDigits _) as [|c rest']; [discriminate|].
  destruct (Ascii.eqb c "."); [|discriminate]. cbn [andb].
  destruct (takeDigits (JS.dropPrefix "TypeScript " s)) as [|d1 major];
    [discriminate|].
  destruct (takeDigits rest') as [|d2 minor]; [discriminate|].
  cbn [String.eqb negb andb]. intro H. injection H as <-.
  simpl. rewrite !str_length_app. simpl. lia.
Qed.

Lemma versionMatch_length (s m : string) :
  versionMatch s = Some m -> 14 <= String.length m.
Proof.
  induction s as [|c s IH]; cbn [versionMatch].
  - destruct (versionAt "") as [m'|] eqn:E; [|discriminate].
    intro H. injection H as <-. now apply (versionAt_length ""%string).
  - destruct (versionAt (String c s)) as [m'|] eqn:E; [|exact IH].
    intro H. injection H as <-. now apply (versionAt_length (String c s)).
Qed.

Lemma includes_refl (s : string) : JS.includes s s = true.
Proof.
  rewrite <- (str_app_nil_r s) at 1. exact (includes_app "" s "").
Qed.

Lemma includes_same_length (s p : string) :
  JS.includes s p = true -> String.length s <= String.length p -> s = p.
Proof.
  intros H L. apply includes_decompose in H. destruct H as (a & b & ->).
  rewrite !str_length_app in L.
  destruct a as [|x a]; [|simpl in L; lia].
  destruct b as [|y b]; [|simpl in L; lia].
  simpl. apply str_app_nil_r.
Qed.

Lemma links_title_length (link : Link) :
  In link links -> String.length (title link) = 14.
Proof.
  unfold links. simpl. intro H.
  repeat (destruct H as [<-|H]; [reflexivity|]). destruct H.
Qed.

Lemma correctDocLink_title (input : string) (link : Link) :
  correctDocLink input = Some link ->
  In link links /\ versionMatch input = Some (title link).
Proof.
  unfold correctDocLink.
  destruct (versionMatch input) as [m|] eqn:V; [|discriminate].
  intro F. apply find_some in F. destruct F as [Hin Hinc].
  split; [exact Hin|]. f_equal. symmetry. apply includes_same_length; [exact Hinc|].
  rewrite (links_title_length link Hin). now apply (versionMatch_length input).
Qed.

(** X22.  The scorer `Correct Doc Link Exists in Links' gives 1 exactly when
    the first version that the input names, read with all its digits, is the
    title of one of the nine links (TypeScript 5.0 to 5.8), and 0 otherwise;
    so an input that names TypeScript 5.10 or 4.9 scores 0. *)
Theorem doc_link_exists_iff_listed (input : string) :
  (correctDocLinkExists input = 1 <->
   exists link, In link links /\ versionMatch input = Some (title link)) /\
  (correctDocLinkExists input = 0 \/ correctDocLinkExists input = 1).
Proof.
  split.
  - unfold correctDocLinkExists. split.
    + destruct (versionMatch input) as [m|] eqn:V; [|discriminate].
      destruct (correctDocLink input) as [link|] eqn:F; [|discriminate].
      intros _. exists link. rewrite <- V. now apply correctDocLink_title.
    + intros (link & Hin & V). rewrite V. unfold correctDocLink. rewrite V.
      destruct (find _ links) as [l|] eqn:F; [reflexivity|].
      pose proof (find_none _ _ F link Hin) as N. simpl in N.
      now rewrite includes_refl in N.
  - unfold correctDocLinkExists.
    destruct (versionMatch input); [destruct (correctDocLink input)|]; auto.
Qed.

(** X23.  The three scorers that read the version are nested: an output is
    credited with the correct link only if that link is in the list, which
    in turn needs a version in the input; and the credit means that the
    output holds, in parentheses, the address of the link whose title is the
    version named. *)
Theorem version_scorers_are_nested (input output : string) :
  (correctDocLinkInOutput input output = 1 -> correctDocLinkExists input = 1) /\
  (correctDocLinkExists input = 1 -> versionFoundInInput input = 1) /\
  (correctDocLinkInOutput input output = 1 ->
   exists link,
     In link links /\ versionMatch input = Some (title link) /\
     JS.includes output ("(" ++ url link ++ ")") = true).
Proof.
  unfold correctDocLinkInOutput, correctDocLinkExists, versionFoundInInput.
  destruct (versionMatch input) as [m|] eqn:V.
  - destruct (correctDocLink input) as [link|] eqn:F.
    + repeat split; auto. cbv zeta.
      destruct (JS.includes output _) eqn:I; [|discriminate].
      intros _. exists link. rewrite <- V.
      destruct (correctDocLink_title input link F) as [H1 H2]. auto.
    + repeat split; auto; discriminate.
  - repeat split; auto; discriminate.
Qed.

(** ** The keyword fallback does not see the case of letters *)

Lemma lowerChar_idempotent (c : ascii) : JS.lowerChar (JS.lowerChar c) = JS.lowerChar c.
Proof.
  destruct c as [b0 b1 b2 b3 b4 b5 b6 b7].
  destruct b0, b1, b2, b3, b4, b5, b6, b7; reflexivity.
Qed.

Lemma toLowerCase_idempotent (s : string) :
  JS.toLowerCase (JS.toLowerCase s) = JS.toLowerCase s.
Proof.
  induction s as [|c s IH]; simpl; [reflexivity|].
  now rewrite lowerChar_idempotent, IH.
Qed.

Lemma orElse_empty (o : option string) :
  JS.orElse o "" = match o with Some t => t | None => ""%string end.
Proof.
  destruct o as [t|]; simpl; [|reflexivity].
  destruct (String.eqb t "") eqn:E; [|reflexivity].
  apply String.eqb_eq in E. now subst.
Qed.

(** X24.  On texts of code units below 256, where [toLowerCase] is the
    Latin-1 case map, the keyword fallback does not see the case of
    letters: putting the new details in lower case beforehand, or the
    existing details, or both, changes nothing in its result. *)
Theorem fallback_is_case_blind (e : Entry) (m : VariableCostMatch) :
  let lowerNew :=
    {| lineItemId := lineItemId e; quantity := quantity e;
       details := option_map JS.toLowerCase (details e) |} in
  let lowerExisting :=
    {| vm_contractId := vm_contractId m; vm_contractNumber := vm_contractNumber m;
       vm_details := JS.toLowerCase (vm_details m) |} in
  keywordFallback lowerNew m = keywordFallback e m /\
  keywordFallback e lowerExisting = keywordFallback e m /\
  keywordFallback lowerNew lowerExisting = keywordFallback e m.
Proof.
  intros lowerNew lowerExisting.
  assert (E : JS.toLowerCase (JS.orElse (details lowerNew) "") =
              JS.toLowerCase (JS.orElse (details e) "")).
  { subst lowerNew. cbn [details]. rewrite !orElse_empty.
    destruct (details e); simpl; [apply toLowerCase_idempotent|reflexivity]. }
  assert (E' : JS.toLowerCase (vm_details lowerExisting) =
               JS.toLowerCase (vm_details m)).
  { subst lowerExisting. cbn [vm_details]. apply toLowerCase_idempotent. }
  unfold keywordFallback. rewrite E, E'. repeat split.
Qed.

(** ** The further properties on sample data *)

Import Samples.

Lemma fallback_ignores_missing_details_witness :
  JS.truthy (details bareEntry) = false /\
  isVariableCost MOCK_LINE_ITEMS bareEntry = true /\
  entryFindings MOCK_LINE_ITEMS unreachable MOCK_CONTRACTS bareEntry = [].
Proof.
  split; [reflexivity|]. split; [reflexivity|].
  exact (proj2 (proj2
           (fallback_ignores_missing_details MOCK_LINE_ITEMS unreachable MOCK_CONTRACTS
              bareEntry (matchOf contract001 contract001Fiber) eq_refl
              (fun _ => eq_refl)))
           eq_refl).
Defined.

Lemma fallback_recognises_contained_text_witness :
  JS.includes (JS.toLowerCase (vm_details (matchOf contract001 contract001Fiber)))
    (JS.toLowerCase (JS.orElse (details cableEntry) "")) = true /\
  keywords (JS.toLowerCase (JS.orElse (details cableEntry) "")) <> [] /\
  isDuplicate (keywordFallback cableEntry (matchOf contract001 contract001Fiber)) = true.
Proof.
  assert (H1 : JS.includes
                 (JS.toLowerCase (vm_details (matchOf contract001 contract001Fiber)))
                 (JS.toLowerCase (JS.orElse (details cableEntry) "")) = true)
    by reflexivity.
  assert (H2 : keywords (JS.toLowerCase (JS.orElse (details cableEntry) "")) <> [])
    by (vm_compute; discriminate).
  split; [exact H1|]. split; [exact H2|].
  exact (proj1 (fallback_recognises_contained_text cableEntry
                  (matchOf contract001 contract001Fiber) H1 H2)).
Defined.

Lemma finding_kind_follows_cost_type_witness :
  In (exactFinding switchEntry networkSwitch contract001)
    (findings MOCK_CONTRACTS MOCK_LINE_ITEMS unreachable scenarioA) /\
  exists e li,
    In e (award_lineItems scenarioA) /\
    getLineItemDetails MOCK_LINE_ITEMS (lineItemId e) = Some li /\
    li_name li = "Network Switch"%string.
Proof.
  assert (H : In (exactFinding switchEntry networkSwitch contract001)
                (findings MOCK_CONTRACTS MOCK_LINE_ITEMS unreachable scenarioA))
    by (left; reflexivity).
  split; [exact H|].
  destruct (finding_kind_follows_cost_type MOCK_CONTRACTS MOCK_LINE_ITEMS unreachable
              scenarioA _ H) as (e & li & He & Hd & _ & Hn & _).
  exists e, li. split; [exact He|]. split; [exact Hd|]. now rewrite <- Hn.
Defined.

Lemma no_candidate_no_findings_witness :
  (forall c, In c MOCK_CONTRACTS -> candidate airportAward c = false) /\
  extractAwardData noParse (requestOf airportAward) = Some airportAward /\
  findings MOCK_CONTRACTS MOCK_LINE_ITEMS unreachable airportAward = [].
Proof.
  assert (H : forall c, In c MOCK_CONTRACTS -> candidate airportAward c = false).
  { intros c Hc. simpl in Hc.
    repeat (destruct Hc as [<-|Hc]; [reflexivity|]). destruct Hc. }
  split; [exact H|]. split; [reflexivity|].
  exact (proj1 (no_candidate_no_findings MOCK_CONTRACTS MOCK_LINE_ITEMS unreachable
                  noParse noStream (requestOf airportAward) airportAward world0
                  H eq_refl)).
Defined.

Lemma other_last_message_means_conversation_witness :
  role assistantReply <> User /\
  fst (POST MOCK_CONTRACTS MOCK_LINE_ITEMS unreachable noParse noStream
         {| messages := [assistantReply]; awardData := None |} world0) =
  {| statusCode := 200; body := noStream [assistantReply] |}.
Proof.
  assert (H : role assistantReply <> User) by discriminate.
  split; [exact H|].
  exact (proj1 (other_last_message_means_conversation MOCK_CONTRACTS MOCK_LINE_ITEMS
                  unreachable noParse noStream [assistantReply] world0 H)).
Defined.

Lemma submitted_award_is_evaluated_witness :
  parseA (stringifyA scenarioA) = Some scenarioA /\
  extractAwardData parseA
    (Client.sendMessage (Client.handleAwardSubmit stringifyA scenarioA) [assistantReply])
  = Some scenarioA.
Proof.
  split; [reflexivity|].
  exact (proj1 (submitted_award_is_evaluated MOCK_CONTRACTS MOCK_LINE_ITEMS unreachable
                  parseA noStream stringifyA scenarioA [assistantReply] world0 eq_refl)).
Defined.

Lemma award_sources_witness :
  extractAwardData noParse legacyRequest = Some legacyAward /\
  findings MOCK_CONTRACTS MOCK_LINE_ITEMS unreachable legacyAward = [].
Proof.
  assert (H : extractAwardData noParse legacyRequest = Some legacyAward)
    by reflexivity.
  split; [exact H|].
  destruct (award_sources MOCK_CONTRACTS MOCK_LINE_ITEMS unreachable noParse
              legacyRequest legacyAward H) as [B|[[_ [t P]]|(_ & _ & F & _)]].
  - discriminate B.
  - discriminate P.
  - exact F.
Defined.

Lemma lookup_by_id_witness :
  NoDup (map id MOCK_CONTRACTS) /\ NoDup (map li_id MOCK_LINE_ITEMS) /\
  getContractDetails MOCK_CONTRACTS (id contract001) = Some contract001 /\
  getLineItemDetails MOCK_LINE_ITEMS (li_id networkSwitch) = Some networkSwitch.
Proof.
  assert (H1 : NoDup (map id MOCK_CONTRACTS)).
  { simpl. repeat constructor; simpl; intuition discriminate. }
  assert (H2 : NoDup (map li_id MOCK_LINE_ITEMS)).
  { simpl. repeat constructor; simpl; intuition discriminate. }
  split; [exact H1|]. split; [exact H2|].
  destruct (lookup_by_id MOCK_CONTRACTS MOCK_LINE_ITEMS) as (_ & _ & _ & _ & Hc & Hl).
  split.
  - exact (Hc H1 contract001 (or_introl eq_refl)).
  - exact (Hl H2 networkSwitch (or_intror (or_introl eq_refl))).
Defined.

Lemma updateLineItem_never_clears_witness :
  nth_error
    (updateLineItem 1
       {| u_lineItemId := None; u_quantity := None; u_details := Some ""%string |}
       initialLineItems) 1 =
  Some {| lineItemId := "line-002"; quantity := Some (1 # 1)%Q;
          details := Some ""%string |} /\
  exists before,
    nth_error initialLineItems 1 = Some before /\
    (quantity before <> None ->
     quantity {| lineItemId := "line-002"; quantity := Some (1 # 1)%Q;
                 details := Some ""%string |} <> None).
Proof.
  assert (H : nth_error
                (updateLineItem 1
                   {| u_lineItemId := None; u_quantity := None;
                      u_details := Some ""%string |}
                   initialLineItems) 1 =
              Some {| lineItemId := "line-002"; quantity := Some (1 # 1)%Q;
                      details := Some ""%string |}) by reflexivity.
  split; [exact H|].
  destruct (proj1 (updateLineItem_never_clears 1 _ initialLineItems 1 _ H))
    as (before & Hb & Hq & _).
  exists before. split; [exact Hb|exact Hq].
Defined.

(** The regular expressions of the scorers on sample texts. *)
Example versionMatch_in_question :
  versionMatch "Tell me about the TypeScript 5.8 release" = Some "TypeScript 5.8"%string.
Proof. reflexivity. Qed.

Example versionMatch_takes_all_digits :
  versionMatch "What is new in TypeScript 5.10?" = Some "TypeScript 5.10"%string /\
  correctDocLinkExists "What is new in TypeScript 5.10?" = 0 /\
  correctDocLinkExists "Tell me about the TypeScript 5.2 release" = 1 /\
  versionMatch "TypeScript 5 and TypeScript 4.9." = Some "TypeScript 4.9"%string.
Proof. repeat split. Qed.

Example markdown_link_samples :
  markdownLinksFound "See [the notes](https://example.org) for more" = true /\
  markdownLinksFound "no link [here] (at all)" = false /\
  markdownLinksFound ("[split]" ++ nl ++ "(link)") = false.
Proof. repeat split. Qed.

Example form_edits :
  removeLineItem 0 initialLineItems =
    [ {| lineItemId := "line-002"; quantity := Some (1 # 1)%Q; details := None |} ] /\
  List.length (addLineItem MOCK_LINE_ITEMS initialLineItems) = 3 /\
  removeLineItem 5 initialLineItems = initialLineItems.
Proof. repeat split. Qed.
